(** * Flange cost calculator: a shallow embedding of [app.py]

    The catalog navigation, the two estimators and the costing chain of
    the Streamlit application are embedded as Rocq functions.  Python
    floats are IEEE-754 binary64 numbers and are modelled by the kernel's
    primitive floats, so that every arithmetic step rounds as it does in
    the program.  Strings are sequences of ASCII characters; exceptions
    are explicit results. *)

From Stdlib Require Import ZArith Floats Ascii String DecimalString List Bool Lia.
From stdpp Require Import base option list gmap strings.

Set Warnings "-inexact-float,-register-all".

Local Open Scope Z_scope.

(** ** Exceptions and fallible computations *)

Inductive exn : Set :=
| ValueError
| IndexError
| TypeError
| KeyError
| ZeroDivisionError
| AttributeError
| OverflowError.

Inductive result (A : Type) : Type :=
| Ok (a : A)
| Raise (e : exn).
Arguments Ok {A} a.
Arguments Raise {A} e.

#[global] Instance result_ret : MRet result := @Ok.

#[global] Instance result_bind : MBind result :=
  fun A B (k : A -> result B) (r : result A) =>
    match r with
    | Ok a => k a
    | Raise e => Raise e
    end.

(** [except (ValueError, IndexError, TypeError)]: the handler both
    estimators install around their parsing code. *)
Definition caught (e : exn) : bool :=
  match e with
  | ValueError | IndexError | TypeError => true
  | KeyError | ZeroDivisionError | AttributeError | OverflowError => false
  end.

Definition try_except {A : Type} (body : result A) (handler : result A) : result A :=
  match body with
  | Ok a => Ok a
  | Raise e => if caught e then handler else Raise e
  end.

(** ** Python string operations on ASCII text *)

Module PyStr.

Definition code (c : ascii) : nat := nat_of_ascii c.

Definition between (lo hi : nat) (c : ascii) : bool :=
  (lo <=? code c)%nat && (code c <=? hi)%nat.

(** [str.isspace], also the class [\s] of [re]: TAB..CR, FS..US, SPACE. *)
Definition is_space (c : ascii) : bool := between 9 13 c || between 28 32 c.

Definition is_digit (c : ascii) : bool := between 48 57 c.
Definition is_upper (c : ascii) : bool := between 65 90 c.
Definition is_lower (c : ascii) : bool := between 97 122 c.

(** The class [\w] of [re] on ASCII text; [\W] is its complement. *)
Definition is_word (c : ascii) : bool :=
  is_digit c || is_upper c || is_lower c || Ascii.eqb c "_".

Definition lower_char (c : ascii) : ascii :=
  if is_upper c then ascii_of_nat (code c + 32) else c.

Fixpoint lower (s : string) : string :=
  match s with
  | EmptyString => EmptyString
  | String c s' => String (lower_char c) (lower s')
  end.

Definition is_empty (s : string) : bool :=
  match s with
  | EmptyString => true
  | String _ _ => false
  end.

(** [c in s] for a one-character needle *)
Fixpoint contains (c : ascii) (s : string) : bool :=
  match s with
  | EmptyString => false
  | String d s' => Ascii.eqb d c || contains c s'
  end.

Fixpoint lstrip (s : string) : string :=
  match s with
  | EmptyString => EmptyString
  | String c s' => if is_space c then lstrip s' else s
  end.

Fixpoint rstrip (s : string) : string :=
  match s with
  | EmptyString => EmptyString
  | String c s' =>
      let r := rstrip s' in
      if is_space c && is_empty r then EmptyString else String c r
  end.

Definition strip (s : string) : string := rstrip (lstrip s).

(** Prepend a character to the first segment of a split in progress. *)
Definition push (c : ascii) (segs : list string) : list string :=
  match segs with
  | [] => [String c EmptyString]
  | seg :: rest => String c seg :: rest
  end.

(** [s.split(sep)] for a one-character separator: never an empty list. *)
Fixpoint split (sep : ascii) (s : string) : list string :=
  match s with
  | EmptyString => [EmptyString]
  | String c s' =>
      if Ascii.eqb c sep then EmptyString :: split sep s'
      else push c (split sep s')
  end.

(** [s.replace(old, '')] for a non-empty [old]: occurrences are removed
    left to right without overlap; [skip] counts the characters of an
    occurrence still to be dropped. *)
Fixpoint remove_from (old : string) (skip : nat) (s : string) : string :=
  match s with
  | EmptyString => EmptyString
  | String c s' =>
      match skip with
      | S k => remove_from old k s'
      | O =>
          if String.prefix old s
          then remove_from old (String.length old - 1) s'
          else String c (remove_from old O s')
      end
  end.

Definition remove (old s : string) : string := remove_from old O s.

End PyStr.

(** ** Python's [float(str)]

    The built-in is not part of the repository; it is modelled after the
    grammar of the language reference (sign, [inf]/[infinity]/[nan],
    decimal digits with single underscores between digits, an optional
    fraction and exponent) with correct rounding to binary64.  Around an
    ASCII text the conversion ignores the whitespace of the C locale,
    TAB..CR and SPACE; the separators FS..US, which [str.strip] removes,
    make it fail. *)

Module PyFloat.

Definition is_c_space (c : ascii) : bool :=
  PyStr.between 9 13 c || Ascii.eqb c " ".

Fixpoint skip_leading (s : string) : string :=
  match s with
  | EmptyString => EmptyString
  | String c s' => if is_c_space c then skip_leading s' else s
  end.

Fixpoint drop_trailing (s : string) : string :=
  match s with
  | EmptyString => EmptyString
  | String c s' =>
      let r := drop_trailing s' in
      if is_c_space c && PyStr.is_empty r then EmptyString else String c r
  end.

Definition digit_val (c : ascii) : option Z :=
  if PyStr.is_digit c then Some (Z.of_nat (PyStr.code c - 48)) else None.

(** The tail of a [digitpart], after a first digit was read: value so
    far, number of digits read, rest of the input. *)
Fixpoint digits_tail (acc cnt : Z) (s : string) : Z * Z * string :=
  match s with
  | EmptyString => (acc, cnt, s)
  | String c s' =>
      match digit_val c with
      | Some d => digits_tail (10 * acc + d) (cnt + 1) s'
      | None =>
          if Ascii.eqb c "_" then
            match s' with
            | EmptyString => (acc, cnt, s)
            | String c2 s'' =>
                match digit_val c2 with
                | Some d => digits_tail (10 * acc + d) (cnt + 1) s''
                | None => (acc, cnt, s)
                end
            end
          else (acc, cnt, s)
      end
  end.

Definition digitpart (acc : Z) (s : string) : option (Z * Z * string) :=
  match s with
  | EmptyString => None
  | String c s' =>
      match digit_val c with
      | Some d => Some (digits_tail (10 * acc + d) 1 s')
      | None => None
      end
  end.

(** [number ::= [digitpart] "." digitpart | digitpart ["."]]: all the
    digits read as one integer, and how many of them follow the point. *)
Definition number (s : string) : option (Z * Z * string) :=
  match digitpart 0 s with
  | Some (m, _, rest) =>
      match rest with
      | String "." rest' =>
          match digitpart m rest' with
          | Some r => Some r
          | None => Some (m, 0, rest')
          end
      | _ => Some (m, 0, rest)
      end
  | None =>
      match s with
      | String "." rest' => digitpart 0 rest'
      | _ => None
      end
  end.

Definition signed (s : string) : bool * string :=
  match s with
  | String "-" s' => (true, s')
  | String "+" s' => (false, s')
  | _ => (false, s)
  end.

(** [exponent ::= ("e" | "E") [sign] digitpart], on lower-cased input;
    it must reach the end of the text. *)
Definition exponent (s : string) : option Z :=
  match s with
  | EmptyString => Some 0
  | String "e" s' =>
      let '(neg, s'') := signed s' in
      match digitpart 0 s'' with
      | Some (e, _, EmptyString) => Some (if neg then - e else e)
      | _ => None
      end
  | _ => None
  end.

(** The binary64 number nearest to [m * 10 ^ scale] (ties to even). *)
Definition of_decimal (neg : bool) (m scale : Z) : float :=
  match m with
  | Zpos _ =>
      let n := m * 10 ^ Z.max scale 0 in
      let d := 10 ^ Z.max (- scale) 0 in
      SF2Prim (SFdiv prec emax
                 (S754_finite neg (Z.to_pos n) 0)
                 (S754_finite false (Z.to_pos d) 0))
  | _ => if neg then PrimFloat.neg_zero else PrimFloat.zero
  end.

Definition py_float (text : string) : option float :=
  let '(neg, body) := signed (PyStr.lower (drop_trailing (skip_leading text))) in
  if String.eqb body "inf" || String.eqb body "infinity"
  then Some (if neg then PrimFloat.neg_infinity else PrimFloat.infinity)
  else if String.eqb body "nan" then Some PrimFloat.nan
  else
    match number body with
    | Some (m, k, rest) =>
        match exponent rest with
        | Some e => Some (of_decimal neg m (e - k))
        | None => None
        end
    | None => None
    end.

(** [float(text)] as a computation: [ValueError] when the text is not
    a number. *)
Definition float_of_str (text : string) : result float :=
  match py_float text with
  | Some x => Ok x
  | None => Raise ValueError
  end.

(** [x / y] on floats: Python raises instead of returning an infinity. *)
Definition truediv (x y : float) : result float :=
  if PrimFloat.eqb y 0%float then Raise ZeroDivisionError
  else Ok (x / y)%float.

End PyFloat.

(** ** Python values

    What [json.load] builds and the script handles: [None], booleans,
    numbers, strings, lists and dictionaries keyed by strings.  A JSON
    number is kept at its binary64 value. *)

Inductive pyval : Type :=
| PNone
| PBool (b : bool)
| PNum (x : float)
| PStr (s : string)
| PList (l : list pyval)
| PDict (d : gmap string pyval).

Module PyVal.

(** [isinstance(v, (int, float))]; [bool] is a subclass of [int]. *)
Definition is_number (v : pyval) : bool :=
  match v with
  | PNum _ | PBool _ => true
  | _ => false
  end.

Definition is_none (v : pyval) : bool :=
  match v with
  | PNone => true
  | _ => false
  end.

(** The value a number takes in float arithmetic. *)
Definition number_value (v : pyval) : float :=
  match v with
  | PNum x => x
  | PBool true => 1%float
  | _ => 0%float
  end.

(** Truth value testing ([if v:], [not v]). *)
Definition truthy (v : pyval) : bool :=
  match v with
  | PNone => false
  | PBool b => b
  | PNum x => negb (PrimFloat.eqb x 0%float)
  | PStr s => negb (PyStr.is_empty s)
  | PList l => match l with [] => false | _ => true end
  | PDict d => negb (bool_decide (d = ∅))
  end.

(** [d.get(key)] and [d.get(key, default)] *)
Definition get (d : gmap string pyval) (key : string) (default : pyval) : pyval :=
  match d !! key with
  | Some v => v
  | None => default
  end.

(** [key in d] *)
Definition has_key (d : gmap string pyval) (key : string) : bool :=
  bool_decide (is_Some (d !! key)).

(** The numeric format specs [:.2f] and [:.3f] accept numbers only: a
    string raises [ValueError], any other object [TypeError]. *)
Definition format_f_arg (v : pyval) : result float :=
  match v with
  | PNum _ | PBool _ => Ok (number_value v)
  | PStr _ => Raise ValueError
  | _ => Raise TypeError
  end.

End PyVal.

(** ** Configuration *)

Definition REFERENCE_BILLET_WIDTH_MM : Z := 100.
Definition REFERENCE_BILLET_HEIGHT_MM : Z := 100.
Definition REFERENCE_BILLET_MASS_KG : float := 482.0%float.
Definition GST_RATE : float := 0.19%float.

(** An [int] operand of a float operation is converted to the nearest
    binary64 number. *)
Definition float_of_int (n : Z) : float :=
  SF2Prim (binary_normalize prec emax n 0 false).

(** ** Helper functions *)

(** [get_nested_value(data_dict, path_list)]; [PNone] is the [None] the
    function returns on a missing key. *)
Fixpoint get_nested_value (current_level : pyval) (path_list : list string) : pyval :=
  match path_list with
  | [] => current_level
  | key_part :: rest =>
      match current_level with
      | PDict d =>
          match d !! key_part with
          | Some v => get_nested_value v rest
          | None => PNone
          end
      | _ => PNone
      end
  end.

(** The body of the [try] block of [calculate_billet_weight_from_section]. *)
Definition billet_weight_try (section_str : string) : result (option float) :=
  let parts := PyStr.split "x" (PyStr.lower section_str) in
  if negb (length parts =? 2)%nat then Ok None
  else
    match parts with
    | p0 :: p1 :: _ =>
        width_mm ← PyFloat.float_of_str p0;
        height_mm ← PyFloat.float_of_str p1;
        if (REFERENCE_BILLET_WIDTH_MM =? 0) || (REFERENCE_BILLET_HEIGHT_MM =? 0)
        then Ok None
        else
          mass ← PyFloat.truediv
                   (width_mm * height_mm * REFERENCE_BILLET_MASS_KG)%float
                   (float_of_int (REFERENCE_BILLET_WIDTH_MM * REFERENCE_BILLET_HEIGHT_MM));
          Ok (Some mass)
    | _ => Raise IndexError
    end.

(** [calculate_billet_weight_from_section(section_str)]: [Ok None] is the
    [None] it returns.  On a value that is not a string, [not section_str]
    answers for the falsy ones and [.lower()] fails on the others. *)
Definition calculate_billet_weight_from_section (section_str : pyval) : result (option float) :=
  match section_str with
  | PStr s =>
      if PyStr.is_empty s || negb (PyStr.contains "x" (PyStr.lower s)) then Ok None
      else try_except (billet_weight_try s) (Ok None)
  | v => if PyVal.truthy v then Raise AttributeError else Ok None
  end.

(** The body of the [try] block of [get_cutting_waste_kg]: operands are
    converted and divided left to right. *)
Definition inch_value_try (inch_size_str : string) : result float :=
  let cleaned_inch_str := PyStr.strip (PyStr.remove "_inch" inch_size_str) in
  let parts := PyStr.split "_" cleaned_inch_str in
  match parts with
  | [p0] => PyFloat.float_of_str p0
  | [p0; p1] =>
      a ← PyFloat.float_of_str p0;
      b ← PyFloat.float_of_str p1;
      PyFloat.truediv a b
  | [p0; p1; p2] =>
      a ← PyFloat.float_of_str p0;
      b ← PyFloat.float_of_str p1;
      c ← PyFloat.float_of_str p2;
      q ← PyFloat.truediv b c;
      Ok (a + q)%float
  | p0 :: _ => PyFloat.float_of_str p0
  | [] => Raise IndexError
  end.

(** [numeric_inch_val] after the [try] statement. *)
Definition numeric_inch_val (inch_size_str : string) : result float :=
  try_except (inch_value_try inch_size_str) (Ok 0%float).

(** The step function at the end of [get_cutting_waste_kg]. *)
Definition waste_band (numeric_inch_val : float) : float :=
  if (numeric_inch_val <=? 0)%float then 0.2%float
  else if (numeric_inch_val <=? 4)%float then 0.2%float
  else if (numeric_inch_val <=? 8)%float then 0.5%float
  else if (numeric_inch_val <=? 12)%float then 1.0%float
  else 1.0%float.

Definition get_cutting_waste_kg (inch_size_str : string) : result float :=
  if PyStr.is_empty inch_size_str then Ok 0.2%float
  else
    x ← numeric_inch_val inch_size_str;
    Ok (waste_band x).

(** [create_safe_key(description_str)]: [re.sub(r'\W+', '_', ...)], every
    maximal run of non-word characters becomes one underscore;
    [in_run] tells that the run's underscore was already written. *)
Fixpoint sub_nonword_runs (in_run : bool) (s : string) : string :=
  match s with
  | EmptyString => EmptyString
  | String c s' =>
      if PyStr.is_word c then String c (sub_nonword_runs false s')
      else if in_run then sub_nonword_runs true s'
      else String "_" (sub_nonword_runs true s')
  end.

Definition create_safe_key (description_str : string) : string :=
  sub_nonword_runs false description_str.

Definition price_key (desc : string) : string :=
  ("price_extra_" ++ create_safe_key desc)%string.

(** ** Catalog navigation *)

Definition level_names : list string :=
  ["Flange Type"; "Inch Size"; "Class Rating"; "Face/Schedule/(General)";
   "Schedule/Section/(General)"; "Section/Variant"; "Variant/Description"]%string.

(** The part of [st.session_state] the navigation uses: the selection
    path and the values of the select boxes, by widget key. *)
Record SessionState : Type := {
  selections : list string;
  widget_values : gmap string string
}.

Definition initial_selections : list string :=
  replicate (length level_names) EmptyString.

(** The loop [for k in range(level_idx + 1, len(selections))], which
    stores the empty string at every position [k] it visits. *)
Definition clear_selections (ks : list nat) (sel : list string) : list string :=
  fold_left (fun acc k => <[k := EmptyString]> acc) ks sel.

(** [selection_on_change_callback(level_idx, widget_key_for_level)]: the
    widget's value is read first ([KeyError] when the key is unknown),
    then stored ([IndexError] outside the list). *)
Definition selection_on_change_callback
    (level_idx : nat) (widget_key_for_level : string) (st : SessionState)
    : result SessionState :=
  match widget_values st !! widget_key_for_level with
  | None => Raise KeyError
  | Some value =>
      if (level_idx <? length (selections st))%nat then
        let sel := <[level_idx := value]> (selections st) in
        Ok {| selections :=
                clear_selections
                  (seq (level_idx + 1) (length sel - (level_idx + 1))) sel;
              widget_values := widget_values st |}
      else Raise IndexError
  end.

(** The leaf test of both the rendering loop and the derivation of
    [selected_flange_data]:
    [isinstance(v, dict) and all(k in v for k in ['FW', 'CW'])]. *)
Definition is_costable_leaf (v : pyval) : bool :=
  match v with
  | PDict d => forallb (PyVal.has_key d) ["FW"; "CW"]%string
  | _ => false
  end.

(** [data_source_for_current_dropdown] at level [i]: the selections of
    the levels above are followed; a missing key gives the empty mapping. *)
Fixpoint follow_selections (source : pyval) (keys : list string) : pyval :=
  match keys with
  | [] => source
  | key_in_path :: rest =>
      match source with
      | PDict d =>
          match d !! key_in_path with
          | Some v => follow_selections v rest
          | None => PDict ∅
          end
      | _ => PDict ∅
      end
  end.

Definition data_source_for_current_dropdown
    (flange_database : pyval) (sel : list string) (i : nat) : pyval :=
  follow_selections flange_database (take i sel).

(** [[s for s in st.session_state.selections if s]] *)
Definition active_selection_path (sel : list string) : list string :=
  List.filter (fun s => negb (PyStr.is_empty s)) sel.

Definition selected_flange_data
    (flange_database : pyval) (sel : list string) : option (gmap string pyval) :=
  match active_selection_path sel with
  | [] => None
  | path =>
      let data_candidate := get_nested_value flange_database path in
      if is_costable_leaf data_candidate then
        match data_candidate with
        | PDict d => Some d
        | _ => None
        end
      else None
  end.

(** ** Compound leaf labels *)

(** The pattern [\s*\+\s*] anchored at the start of the text: what
    follows the match, when there is one. *)
Fixpoint match_plus (s : string) : option string :=
  match s with
  | EmptyString => None
  | String c s' =>
      if Ascii.eqb c "+" then Some (PyStr.lstrip s')
      else if PyStr.is_space c then match_plus s'
      else None
  end.

(** [re.split(r'\s*\+\s*', s)]: the text is scanned from the left; where
    the pattern matches, the current segment ends and the scan resumes
    after the match; elsewhere the character joins the current segment.
    Every step consumes a character, so [fuel] above the length of the
    text is never exhausted. *)
Fixpoint re_split_plus_from (fuel : nat) (s : string) : list string :=
  match fuel with
  | O => [s]
  | S fuel' =>
      match match_plus s with
      | Some rest => EmptyString :: re_split_plus_from fuel' rest
      | None =>
          match s with
          | EmptyString => [EmptyString]
          | String c s' => PyStr.push c (re_split_plus_from fuel' s')
          end
      end
  end.

Definition re_split_plus (s : string) : list string :=
  re_split_plus_from (String.length s) s.

(** [primary_flange_description_for_display] and
    [identified_extra_flanges] of a terminal path label. *)
Definition split_compound_label (final_key_part : string) : string * list string :=
  match re_split_plus final_key_part with
  | [] => (EmptyString, [])
  | p0 :: rest =>
      (PyStr.strip p0,
       List.filter (fun part => negb (PyStr.is_empty part)) (map PyStr.strip rest))
  end.

Definition primary_flange_description_for_display (label : string) : string :=
  fst (split_compound_label label).

Definition identified_extra_flanges (label : string) : list string :=
  snd (split_compound_label label).

(** ** Number formatting and rounding down *)

Module PyNum.

(** [math.floor(x)]: an [int]; infinities and NaN are refused. *)
Definition floor (x : float) : result Z :=
  match Prim2SF x with
  | S754_zero _ => Ok 0
  | S754_finite s m e => Ok (Z.shiftl (cond_Zopp s (Zpos m)) e)
  | S754_infinity _ => Raise OverflowError
  | S754_nan => Raise ValueError
  end.

(** [a / b] rounded to the nearest integer, ties to even ([0 <= a], [0 < b]). *)
Definition div_half_even (a b : Z) : Z :=
  let q := a / b in
  let r := a mod b in
  match 2 * r ?= b with
  | Lt => q
  | Gt => q + 1
  | Eq => if Z.even q then q else q + 1
  end.

Definition decimal (n : Z) : string :=
  DecimalString.NilZero.string_of_uint (N.to_uint (Z.to_N n)).

Fixpoint zeros (k : nat) : string :=
  match k with
  | O => EmptyString
  | S k' => String "0" (zeros k')
  end.

(** [format(x, '.<digits>f')] for [digits >= 1]: the exact value of the
    float, rounded half to even at the requested decimal. *)
Definition format_f (digits : nat) (x : float) : string :=
  let scale := 10 ^ Z.of_nat digits in
  let render (neg : bool) (units : Z) : string :=
    let frac := decimal (units mod scale) in
    ((if neg then "-" else EmptyString) ++ decimal (units / scale) ++ "." ++
     zeros (digits - String.length frac) ++ frac)%string in
  match Prim2SF x with
  | S754_nan => "nan"%string
  | S754_infinity s => if s then "-inf"%string else "inf"%string
  | S754_zero s => render s 0
  | S754_finite s m e =>
      render s
        (if 0 <=? e then Zpos m * 2 ^ e * scale
         else div_half_even (Zpos m * scale) (2 ^ (- e)))
  end.

End PyNum.

(** ** The cost calculator *)

(** The costing inputs kept in [st.session_state], with the two fields of
    the manual FT override. *)
Record CostInputs : Type := {
  cost_steel_per_kg_input : float;
  scrap_cost_per_kg_input : float;
  machining_labour_cost_kg_input : float;
  forging_labour_cost_kg_input : float;
  transportation_cost_kg_input : float;
  profit_margin_percent_input : float;
  num_pieces_required_input : Z;
  ft_manual_checkbox : bool;
  ft_manual_input : float
}.

Definition cost_input_keys_defaults : CostInputs := {|
  cost_steel_per_kg_input := 100.0%float;
  scrap_cost_per_kg_input := 20.0%float;
  machining_labour_cost_kg_input := 10.0%float;
  forging_labour_cost_kg_input := 15.0%float;
  transportation_cost_kg_input := 5.0%float;
  profit_margin_percent_input := 10.0%float;
  num_pieces_required_input := 1;
  ft_manual_checkbox := false;
  ft_manual_input := 0.0%float
|}.

(** What the block under [if FT is numeric] reports about scrap. *)
Record ScrapReport : Type := {
  scrap_generated_kg_per_piece_gross : float;
  recoverable_scrap_kg_per_piece : float;
  fw_below_ft_warning : bool
}.

(** Every quantity the handler of the [Calculate Costs] button computes. *)
Record CostBreakdown : Type := {
  cutting_waste_kg_per_piece : float;
  material_consumed_per_piece_kg : float;
  pieces_from_billet : option (float * Z);
  steel_cost_per_piece : float;
  machining_cost_per_piece : float;
  forging_cost_per_piece : float;
  transportation_weight_basis_kg : float;
  transportation_basis_label : string;
  transportation_cost_per_piece : float;
  scrap_report : option ScrapReport;
  scrap_value_per_piece : float;
  total_value_from_extra_flanges : float;
  total_cost_per_piece_before_profit : float;
  profit_amount_per_piece : float;
  cost_with_profit_per_piece : float;
  gst_amount_per_piece : float;
  final_selling_price_per_piece : float;
  final_selling_price_text : string;
  total_order_value : float
}.

Inductive outcome : Type :=
| MissingWeights
| Costed (b : CostBreakdown).

(** [ft_flange_final]: the manual value replaces an FT that the data does
    not give as a number, when the checkbox is ticked. *)
Definition ft_flange_final (inp : CostInputs) (ft_flange_from_data : pyval) : pyval :=
  if PyVal.is_none ft_flange_from_data || negb (PyVal.is_number ft_flange_from_data)
  then
    if ft_manual_checkbox inp then PNum (ft_manual_input inp)
    else ft_flange_from_data
  else ft_flange_from_data.

Definition transport_basis (cw_flange : float) (ft_final : pyval) : float * string :=
  if negb (PyVal.is_none ft_final) && PyVal.is_number ft_final
  then (PyVal.number_value ft_final, "(based on FT)"%string)
  else (cw_flange, "(based on CW as FT not available/provided)"%string).

Definition scrap_loss_factor : float := 0.90%float.

Definition scrap (inp : CostInputs) (fw_flange : float) (ft_final : pyval)
    : option ScrapReport * float :=
  if negb (PyVal.is_none ft_final) && PyVal.is_number ft_final then
    let ft := PyVal.number_value ft_final in
    let warn := (fw_flange <? ft)%float in
    let gross := if warn then 0.0%float else (fw_flange - ft)%float in
    let recoverable := (gross * scrap_loss_factor)%float in
    (Some {| scrap_generated_kg_per_piece_gross := gross;
             recoverable_scrap_kg_per_piece := recoverable;
             fw_below_ft_warning := warn |},
     (recoverable * scrap_cost_per_kg_input inp)%float)
  else (None, 0.0%float).

(** The income loop: [total += prices.get(desc, 0.0)] for every extra
    flange, when both the price table and the list are non-empty. *)
Definition extra_flange_income
    (extra_flange_prices : gmap string float) (extras : list string) : float :=
  if negb (bool_decide (extra_flange_prices = ∅)) && negb (bool_decide (extras = []))
  then
    fold_left
      (fun total desc =>
         (total + match extra_flange_prices !! desc with
                  | Some price => price
                  | None => 0.0
                  end)%float)
      extras 0.0%float
  else 0.0%float.

(** Section 1 of the results: pieces obtainable from one billet. *)
Definition billet_pieces (billet : option float) (material : float)
    : result (option (float * Z)) :=
  match billet with
  | Some mass =>
      if negb (mass =? 0)%float && (0 <? material)%float then
        n ← PyFloat.truediv mass material;
        complete ← PyNum.floor n;
        Ok (Some (n, complete))
      else Ok None
  | None => Ok None
  end.

(** Sections 2 to 4 of the results: the cost breakdown per piece, the
    final pricing and the order value, from the weights, the waste and
    the billet figures of section 1. *)
Definition cost_chain
    (inp : CostInputs) (extra_flange_prices : gmap string float)
    (cw_flange fw_flange : float) (ft_final : pyval)
    (waste : float) (pieces : option (float * Z)) (extras : list string)
    : CostBreakdown :=
  let steel := (cw_flange * cost_steel_per_kg_input inp)%float in
  let machining := (machining_labour_cost_kg_input inp * cw_flange)%float in
  let forging := (forging_labour_cost_kg_input inp * cw_flange)%float in
  let basis := fst (transport_basis cw_flange ft_final) in
  let transport := (transportation_cost_kg_input inp * basis)%float in
  let scrap_value := snd (scrap inp fw_flange ft_final) in
  let extra := extra_flange_income extra_flange_prices extras in
  let total := (steel + machining + forging + transport - scrap_value - extra)%float in
  let profit := (total * (profit_margin_percent_input inp / 100.0))%float in
  let with_profit := (total + profit)%float in
  let gst := (with_profit * GST_RATE)%float in
  let final := (with_profit + gst)%float in
  {| cutting_waste_kg_per_piece := waste;
     material_consumed_per_piece_kg := (cw_flange + waste)%float;
     pieces_from_billet := pieces;
     steel_cost_per_piece := steel;
     machining_cost_per_piece := machining;
     forging_cost_per_piece := forging;
     transportation_weight_basis_kg := basis;
     transportation_basis_label := snd (transport_basis cw_flange ft_final);
     transportation_cost_per_piece := transport;
     scrap_report := fst (scrap inp fw_flange ft_final);
     scrap_value_per_piece := scrap_value;
     total_value_from_extra_flanges := extra;
     total_cost_per_piece_before_profit := total;
     profit_amount_per_piece := profit;
     cost_with_profit_per_piece := with_profit;
     gst_amount_per_piece := gst;
     final_selling_price_per_piece := final;
     final_selling_price_text := PyNum.format_f 2 final;
     total_order_value :=
       (final * float_of_int (num_pieces_required_input inp))%float |}.

(** The body of [if st.button("Calculate Costs")], once the weights are
    known to be numbers: the two estimators run first, and an exception
    of theirs or of the rounding-down ends the run. *)
Definition cost_breakdown
    (inp : CostInputs) (extra_flange_prices : gmap string float)
    (cw_flange fw_flange : float) (ft_final section_from_data : pyval)
    (inch_size_selected_str : string) (extras : list string)
    : result CostBreakdown :=
  calculated_billet_mass_kg ← calculate_billet_weight_from_section section_from_data;
  waste ← get_cutting_waste_kg inch_size_selected_str;
  pieces ← billet_pieces calculated_billet_mass_kg (cw_flange + waste)%float;
  Ok (cost_chain inp extra_flange_prices cw_flange fw_flange ft_final
        waste pieces extras).

(** The extra flanges named by the last label of the selection path. *)
Definition extra_flanges_of_path (active_path : list string) : list string :=
  match last active_path with
  | Some final_key_part => identified_extra_flanges final_key_part
  | None => []
  end.

(** Pressing [Calculate Costs] on a selected leaf: the fields are read
    from the record, a missing weight stops with an error message, and
    the weights are formatted (which only numbers allow) before anything
    is computed. *)
Definition calculate_costs
    (inp : CostInputs) (extra_flange_prices : gmap string float)
    (selected_flange_data : gmap string pyval) (active_path : list string)
    : result outcome :=
  let cw_flange := PyVal.get selected_flange_data "CW" PNone in
  let fw_flange := PyVal.get selected_flange_data "FW" PNone in
  let ft_flange_from_data := PyVal.get selected_flange_data "FT" PNone in
  let section_from_data := PyVal.get selected_flange_data "SECTION" (PStr "N/A") in
  let inch_size_selected_str := nth 1 active_path EmptyString in
  let extras := extra_flanges_of_path active_path in
  if PyVal.is_none cw_flange || PyVal.is_none fw_flange then Ok MissingWeights
  else
    let ft_final := ft_flange_final inp ft_flange_from_data in
    cw ← PyVal.format_f_arg cw_flange;
    fw ← PyVal.format_f_arg fw_flange;
    b ← cost_breakdown inp extra_flange_prices cw fw ft_final section_from_data
          inch_size_selected_str extras;
    Ok (Costed b).

(** The price fields of the extra flanges *)

(** The loop that follows the parse: every extra flange gets its price
    field, 0.0 when the field is new, and the table of prices by
    description is rebuilt from the fields. *)
Definition register_extra_flange_prices
    (extras : list string) (fields : gmap string float)
    : gmap string float * gmap string float :=
  fold_left
    (fun '(fields, new_extra_flange_prices) desc =>
       let fields' :=
         match fields !! price_key desc with
         | Some _ => fields
         | None => <[price_key desc := 0.0%float]> fields
         end in
       (fields',
        <[desc := default 0.0%float (fields' !! price_key desc)]> new_extra_flange_prices))
    extras (fields, ∅).

(** ** The access gate *)

(** The two entries of [st.session_state] that [check_password] and its
    callback use; [None] is a key that is not set. *)
Record AuthState : Type := {
  password : option string;
  password_correct : option bool
}.

(** What [check_password] does on the page: its answer, and whether the
    "Password incorrect" message is shown under the input. *)
Inductive gate_view : Set :=
| AskPassword
| AskAgainAfterError
| Unlocked.

(** The callback [password_entered]: reading the entered text raises
    [KeyError] when the widget never stored one; the accepted password is
    deleted from the state, a refused one stays. *)
Definition password_entered (st : AuthState) : result AuthState :=
  match password st with
  | None => Raise KeyError
  | Some entered =>
      if String.eqb entered "ranco123"
      then Ok {| password := None; password_correct := Some true |}
      else Ok {| password := Some entered; password_correct := Some false |}
  end.

Definition check_password_view (st : AuthState) : gate_view :=
  match password_correct st with
  | None => AskPassword
  | Some false => AskAgainAfterError
  | Some true => Unlocked
  end.

(** [check_password()]: [True] only on the last branch. *)
Definition check_password (st : AuthState) : bool :=
  match check_password_view st with
  | Unlocked => true
  | _ => false
  end.

(** ** The dropdown rendering loop *)

(** The inner loop over the levels above level [i]: the selections are
    read one by one ([IndexError] past the end of the list) and followed
    while they are keys of the current mapping; the first one that is
    not gives the empty mapping. *)
Fixpoint dropdown_source (source : pyval) (sel : list string) (i : nat) : result pyval :=
  match i with
  | O => Ok source
  | S i' =>
      match sel with
      | [] => Raise IndexError
      | key_in_path :: sel' =>
          match source with
          | PDict d =>
              match d !! key_in_path with
              | Some v => dropdown_source v sel' i'
              | None => Ok (PDict ∅)
              end
          | _ => Ok (PDict ∅)
          end
      end
  end.

(** [options_for_this_level], as a set: the blank option and the keys of
    the mapping the level shows. *)
Definition options_for_this_level (source : pyval) : gset string :=
  {[ EmptyString ]} ∪
  match source with
  | PDict d => dom d
  | _ => ∅
  end.

(** A call of [st.sidebar.selectbox]: its level, the options it is
    given, and the option at the [index] argument, that is
    [options_for_this_level[current_idx]].  What the widget displays is
    Streamlit's business (a keyed widget keeps its own state) and is not
    modelled. *)
Record Selectbox : Type := {
  box_level : nat;
  box_options : gset string;
  box_selected : string
}.

(** The loop [for i in range(len(level_names))] over the levels still to
    render: it stops at a leaf, resets a selection that is not among the
    options of its level, and renders one select box per level. *)
Fixpoint render_levels (flange_database : pyval) (levels : list nat) (sel : list string)
    : result (list string * list Selectbox) :=
  match levels with
  | [] => Ok (sel, [])
  | i :: rest =>
      source ← dropdown_source flange_database sel i;
      if is_costable_leaf source then Ok (sel, [])
      else
        match sel !! i with
        | None => Raise IndexError
        | Some current_selection_value =>
            let valid :=
              bool_decide (current_selection_value ∈ options_for_this_level source) in
            rendered ← render_levels flange_database rest
                         (if valid then sel else <[i := EmptyString]> sel);
            Ok (fst rendered,
                {| box_level := i;
                   box_options := options_for_this_level source;
                   box_selected :=
                     if valid then current_selection_value else EmptyString |}
                :: snd rendered)
        end
  end.

Definition render_dropdowns (flange_database : pyval) (sel : list string)
    : result (list string * list Selectbox) :=
  render_levels flange_database (seq 0 (length level_names)) sel.

(** * Vocabulary of the specification *)

(** What the claim calls malformed: empty text, no separator, not
    exactly two parts, or a part that is not a number. *)
Definition malformed_section (s : string) : Prop :=
  s = EmptyString \/
  PyStr.contains "x" (PyStr.lower s) = false \/
  length (PyStr.split "x" (PyStr.lower s)) <> 2%nat \/
  (exists a b, PyStr.split "x" (PyStr.lower s) = [a; b] /\
               (PyFloat.py_float a = None \/ PyFloat.py_float b = None)).

(** The parsing rule of the specification for a size token, cleaned of
    its "_inch" suffix and of surrounding whitespace and split on the
    underscore: one part is a number, two parts are a fraction
    numerator/denominator, three parts are a whole number plus a
    fraction; anything else is a parse failure.  The failures are told
    apart: a part that is no number, a fraction without a value because
    its denominator is zero, and a token of more than three parts. *)
Inductive inch_reading : Set :=
| Reads (x : float)
| BadNumber
| ZeroDenominator
| TooManyParts.

Definition read_fraction (numerator denominator : string) : inch_reading :=
  match PyFloat.py_float numerator, PyFloat.py_float denominator with
  | Some n, Some d =>
      if (d =? 0)%float then ZeroDenominator else Reads (n / d)%float
  | _, _ => BadNumber
  end.

Definition read_inch_token (token : string) : inch_reading :=
  match PyStr.split "_" (PyStr.strip (PyStr.remove "_inch" token)) with
  | [whole] =>
      match PyFloat.py_float whole with
      | Some x => Reads x
      | None => BadNumber
      end
  | [numerator; denominator] => read_fraction numerator denominator
  | [whole; numerator; denominator] =>
      match PyFloat.py_float whole, read_fraction numerator denominator with
      | Some w, Reads q => Reads (w + q)%float
      | None, _ => BadNumber
      | Some _, failure => failure
      end
  | _ => TooManyParts
  end.

(** The step function of the specification on a result of the code:
    0.2 kg up to 4 inches, 0.5 kg above 4 and up to 8, 1.0 kg above 8. *)
Definition waste_of_size (x : float) (waste : result float) : Prop :=
  ((x <=? 4)%float = true -> waste = Ok 0.2%float) /\
  ((4 <? x)%float = true -> (x <=? 8)%float = true -> waste = Ok 0.5%float) /\
  ((8 <? x)%float = true -> waste = Ok 1.0%float).

(** The recognition rule in the words of the specification: a mapping
    that holds both keys, each with a numeric value. *)
Definition leaf_with_numeric_weights (v : pyval) : bool :=
  match v with
  | PDict d =>
      match d !! "FW"%string, d !! "CW"%string with
      | Some fw, Some cw => PyVal.is_number fw && PyVal.is_number cw
      | _, _ => false
      end
  | _ => false
  end.

(** A catalog whose leaf stores its weights as text. *)
Definition text_weight_leaf : gmap string pyval :=
  {[ "FW"%string := PStr "55"; "CW"%string := PStr "50" ]}.

Definition text_weight_catalog : pyval :=
  PDict {[ "WN"%string := PDict {[ "2_inch"%string := PDict text_weight_leaf ]} ]}.

(** The parse in the words of the specification: the label is split on
    the "+" delimiter and the whitespace around each segment is dropped;
    segment 0 is the primary description, segments 1..n are the extra
    flanges. *)
Definition label_segments (label : string) : list string :=
  map PyStr.strip (PyStr.split "+" label).

Definition primary_segment (label : string) : string :=
  hd EmptyString (label_segments label).

Definition extra_segments (label : string) : list string :=
  tl (label_segments label).

(** The effective FT in the words of the specification: the FT of the
    data when it is present and numeric, else the manual value when the
    override is ticked, else none. *)
Definition effective_ft (inp : CostInputs) (leaf : gmap string pyval) : option float :=
  if PyVal.is_number (PyVal.get leaf "FT" PNone)
  then Some (PyVal.number_value (PyVal.get leaf "FT" PNone))
  else if ft_manual_checkbox inp then Some (ft_manual_input inp)
  else None.

(** Step 5: the transport basis is FT when there is one, else CW. *)
Definition step_transport_basis
    (inp : CostInputs) (leaf : gmap string pyval) (cw : float) : float :=
  match effective_ft inp leaf with
  | Some ft => ft
  | None => cw
  end.

(** Step 6: the gross scrap is FW - FT, a negative difference being
    clamped to 0; 90% of it is recoverable and valued at the scrap price;
    without FT the scrap value is 0. *)
Definition step_gross_scrap (fw ft : float) : float :=
  if (fw <? ft)%float then 0%float else (fw - ft)%float.

Definition step_scrap_value
    (inp : CostInputs) (leaf : gmap string pyval) (fw : float) : float :=
  match effective_ft inp leaf with
  | Some ft => (step_gross_scrap fw ft * 0.90 * scrap_cost_per_kg_input inp)%float
  | None => 0%float
  end.

(** Step 7: the credit is the sum of the prices entered for the extra
    flanges, in the order of the label; a flange without an entered
    price counts 0. *)
Definition step_extra_credit
    (prices : gmap string float) (extras : list string) : float :=
  fold_left (fun total desc => (total + default 0%float (prices !! desc))%float)
    extras 0%float.

(** The formula chain of section 4.4 of the specification, steps 2 to 13,
    as a property of a breakdown. *)
Definition follows_formula_chain
    (inp : CostInputs) (cw : float) (b : CostBreakdown) : Prop :=
  steel_cost_per_piece b = (cw * cost_steel_per_kg_input inp)%float /\
  machining_cost_per_piece b = (machining_labour_cost_kg_input inp * cw)%float /\
  forging_cost_per_piece b = (forging_labour_cost_kg_input inp * cw)%float /\
  transportation_cost_per_piece b =
    (transportation_cost_kg_input inp * transportation_weight_basis_kg b)%float /\
  total_cost_per_piece_before_profit b =
    (steel_cost_per_piece b + machining_cost_per_piece b + forging_cost_per_piece b +
     transportation_cost_per_piece b - scrap_value_per_piece b -
     total_value_from_extra_flanges b)%float /\
  profit_amount_per_piece b =
    (total_cost_per_piece_before_profit b *
     (profit_margin_percent_input inp / 100))%float /\
  cost_with_profit_per_piece b =
    (total_cost_per_piece_before_profit b + profit_amount_per_piece b)%float /\
  gst_amount_per_piece b = (cost_with_profit_per_piece b * 0.19)%float /\
  final_selling_price_per_piece b =
    (cost_with_profit_per_piece b + gst_amount_per_piece b)%float /\
  total_order_value b =
    (final_selling_price_per_piece b *
     float_of_int (num_pieces_required_input inp))%float.

(** Steps 2 to 13 from the inputs: the chain, with its transport basis,
    scrap value and extra-flange credit those of steps 5 to 7 for the
    weights of the leaf, the cost inputs, the price table and the label
    at the end of the path. *)
Definition follows_cost_steps
    (inp : CostInputs) (prices : gmap string float)
    (leaf : gmap string pyval) (path : list string) (b : CostBreakdown) : Prop :=
  transportation_weight_basis_kg b =
    step_transport_basis inp leaf (PyVal.number_value (PyVal.get leaf "CW" PNone)) /\
  scrap_value_per_piece b =
    step_scrap_value inp leaf (PyVal.number_value (PyVal.get leaf "FW" PNone)) /\
  total_value_from_extra_flanges b =
    step_extra_credit prices (extra_flanges_of_path path) /\
  follows_formula_chain inp (PyVal.number_value (PyVal.get leaf "CW" PNone)) b.

(** The inputs of the end-to-end example: the default rates, two pieces. *)
Definition example_inputs : CostInputs := {|
  cost_steel_per_kg_input := 100.0%float;
  scrap_cost_per_kg_input := 20.0%float;
  machining_labour_cost_kg_input := 10.0%float;
  forging_labour_cost_kg_input := 15.0%float;
  transportation_cost_kg_input := 5.0%float;
  profit_margin_percent_input := 10.0%float;
  num_pieces_required_input := 2;
  ft_manual_checkbox := false;
  ft_manual_input := 0.0%float
|}.

Definition example_leaf : gmap string pyval :=
  {[ "CW"%string := PNum 50; "FW"%string := PNum 55; "FT"%string := PNum 52;
     "SECTION"%string := PStr "100x100" ]}.

Definition example_path : list string :=
  ["Weld Neck"; "2_inch"; "150"; "RF"]%string.

(** The example again with no FT in the data and the manual override
    ticked. *)
Definition manual_ft_inputs : CostInputs := {|
  cost_steel_per_kg_input := 100.0%float;
  scrap_cost_per_kg_input := 20.0%float;
  machining_labour_cost_kg_input := 10.0%float;
  forging_labour_cost_kg_input := 15.0%float;
  transportation_cost_kg_input := 5.0%float;
  profit_margin_percent_input := 10.0%float;
  num_pieces_required_input := 2;
  ft_manual_checkbox := true;
  ft_manual_input := 52.0%float
|}.

Definition leaf_without_ft : gmap string pyval :=
  {[ "CW"%string := PNum 50; "FW"%string := PNum 55;
     "SECTION"%string := PStr "100x100" ]}.

(** A leaf whose finished weight is below its FT. *)
Definition leaf_below_ft : gmap string pyval :=
  {[ "CW"%string := PNum 50; "FW"%string := PNum 50; "FT"%string := PNum 52;
     "SECTION"%string := PStr "100x100" ]}.



Definition credit_path : list string :=
  ["Slip On"; "2_inch"; "TypeA + TypeB"]%string.

Definition credit_prices : gmap string float :=
  {[ "TypeB"%string := 100.0%float ]}.

(** Text made of word characters only. *)
Fixpoint all_word (s : string) : bool :=
  match s with
  | EmptyString => true
  | String c s' => PyStr.is_word c && all_word s'
  end.

(** What the regular-expression split and the plain split on "+" have
    in common: first segments that agree up to trailing whitespace,
    further segments that agree up to surrounding whitespace. *)
Definition segments_agree (l1 l2 : list string) : Prop :=
  match l1, l2 with
  | h1 :: t1, h2 :: t2 =>
      PyStr.rstrip h1 = PyStr.rstrip h2 /\ map PyStr.strip t1 = map PyStr.strip t2
  | _, _ => False
  end.

Module FloatMag.

(** The order [SFcompare] computes on finite numbers of one sign:
    exponents first, then mantissas. *)
Definition mag_compare (m1 : positive) (e1 : Z) (m2 : positive) (e2 : Z) : comparison :=
  match e1 ?= e2 with
  | Lt => Lt
  | Gt => Gt
  | Eq => Pos.compare_cont Eq m1 m2
  end.

Definition mag_lt (m1 : positive) (e1 : Z) (m2 : positive) (e2 : Z) : Prop :=
  e1 < e2 \/ (e1 = e2 /\ (m1 < m2)%positive).

End FloatMag.

(** What the arguments of a select box have to do with the selections
    the loop leaves: the option at the index passed is the selection
    stored for the level and is one of the options passed, and the
    options are the blank and the keys of the mapping the selections
    above lead to, which is no leaf. *)
Definition box_consistent
    (flange_database : pyval) (sel : list string) (w : Selectbox) : Prop :=
  box_selected w ∈ box_options w /\
  sel !! box_level w = Some (box_selected w) /\
  box_options w =
    options_for_this_level
      (follow_selections flange_database (take (box_level w) sel)) /\
  is_costable_leaf
    (follow_selections flange_database (take (box_level w) sel)) = false.

(** A selection path whose second level names no key of the catalog. *)
Definition stale_selections : list string :=
  ["WN"; "9_inch"; "150"]%string ++ replicate 4 EmptyString.

(** * Properties *)

(** ** The order on binary64 numbers *)

Module FloatOrder.

Import FloatMag.

Lemma mag_compare_spec (m1 : positive) (e1 : Z) (m2 : positive) (e2 : Z) :
  match mag_compare m1 e1 m2 e2 with
  | Lt => mag_lt m1 e1 m2 e2
  | Eq => e1 = e2 /\ m1 = m2
  | Gt => mag_lt m2 e2 m1 e1
  end.
Proof.
  unfold mag_compare, mag_lt.
  destruct (Z.compare_spec e1 e2) as [He|He|He]; [|lia..].
  rewrite Pos.compare_cont_spec; unfold Pos.switch_Eq.
  destruct (Pos.compare_spec m1 m2); lia.
Qed.

Lemma SFcompare_finite (s1 : bool) (m1 : positive) (e1 : Z)
    (s2 : bool) (m2 : positive) (e2 : Z) :
  SFcompare (S754_finite s1 m1 e1) (S754_finite s2 m2 e2) =
  Some match s1, s2 with
       | true, false => Lt
       | false, true => Gt
       | false, false => mag_compare m1 e1 m2 e2
       | true, true => CompOpp (mag_compare m1 e1 m2 e2)
       end.
Proof.
  unfold mag_compare. destruct s1, s2; cbn; try reflexivity.
  destruct (e1 ?= e2); reflexivity.
Qed.

Lemma SF_above_excludes_below (a b x : spec_float) :
  SFleb b a = true -> SFltb a x = true -> SFleb x b = false.
Proof.
  unfold SFleb, SFltb.
  destruct a as [sa|sa| |sa ma ea], b as [sb|sb| |sb mb eb], x as [sx|sx| |sx mx ex];
    rewrite ?SFcompare_finite;
    try destruct sa; try destruct sb; try destruct sx;
    try (cbn; first [discriminate | reflexivity]).
  all: pose proof (mag_compare_spec mb eb ma ea) as Hba;
       pose proof (mag_compare_spec ma ea mx ex) as Hax;
       pose proof (mag_compare_spec mx ex mb eb) as Hxb;
       unfold mag_lt in *.
  all: destruct (mag_compare mb eb ma ea), (mag_compare ma ea mx ex),
         (mag_compare mx ex mb eb);
       cbn; try discriminate; try reflexivity; exfalso; lia.
Qed.

(** [b <= a < x] excludes [x <= b]. *)
Lemma above_excludes_below (a b x : float) :
  (b <=? a)%float = true -> (a <? x)%float = true -> (x <=? b)%float = false.
Proof. rewrite !leb_spec, ltb_spec. apply SF_above_excludes_below. Qed.

End FloatOrder.

(** ** Splitting text *)

Lemma split_without_separator (sep : ascii) (s : string) :
  PyStr.contains sep s = false -> PyStr.split sep s = [s].
Proof.
  induction s as [|c s IH]; cbn; [reflexivity|].
  intros H. apply orb_false_iff in H as [Hc Hs].
  rewrite Hc, (IH Hs). reflexivity.
Qed.

Lemma split_nonempty (sep : ascii) (s : string) : PyStr.split sep s <> [].
Proof.
  destruct s as [|c s]; cbn; [discriminate|].
  destruct (Ascii.eqb c sep); [discriminate|].
  destruct (PyStr.split sep s); discriminate.
Qed.

(** ** The billet-mass estimator *)

(** The estimator's formula, whatever the sign of the dimensions. *)
Lemma billet_weight_formula (s a b : string) (W H : float) :
  PyStr.split "x" (PyStr.lower s) = [a; b] ->
  PyFloat.py_float a = Some W ->
  PyFloat.py_float b = Some H ->
  calculate_billet_weight_from_section (PStr s) =
    Ok (Some (W * H * 482.0 / 10000)%float).
Proof.
  intros Hsplit Ha Hb. unfold calculate_billet_weight_from_section.
  destruct (PyStr.is_empty s) eqn:Hs.
  { destruct s; [discriminate Hsplit | discriminate Hs]. }
  destruct (PyStr.contains "x" (PyStr.lower s)) eqn:Hx.
  2:{ rewrite (split_without_separator _ _ Hx) in Hsplit. discriminate. }
  cbn [orb negb]. unfold billet_weight_try. rewrite Hsplit. cbn [length Nat.eqb negb].
  unfold PyFloat.float_of_str. rewrite Ha, Hb. reflexivity.
Qed.

(** On text the estimator never raises. *)
Lemma billet_weight_total (s : string) :
  exists r, calculate_billet_weight_from_section (PStr s) = Ok r.
Proof.
  unfold calculate_billet_weight_from_section.
  destruct (PyStr.is_empty s || negb (PyStr.contains "x" (PyStr.lower s))); [eauto|].
  unfold billet_weight_try.
  destruct (PyStr.split "x" (PyStr.lower s)) as [|p0 [|p1 [|p2 ps]]]; cbn; eauto.
  unfold PyFloat.float_of_str.
  destruct (PyFloat.py_float p0); cbn; eauto.
  destruct (PyFloat.py_float p1); cbn; eauto.
Qed.


Lemma billet_weight_malformed (s : string) :
  malformed_section s -> calculate_billet_weight_from_section (PStr s) = Ok None.
Proof.
  unfold calculate_billet_weight_from_section.
  intros [->|[Hx|[Hlen|(a & b & Hsplit & Hnum)]]].
  - reflexivity.
  - rewrite Hx. cbn. rewrite orb_true_r. reflexivity.
  - destruct (PyStr.is_empty s || negb (PyStr.contains "x" (PyStr.lower s))); [reflexivity|].
    unfold billet_weight_try.
    destruct (Nat.eqb_spec (length (PyStr.split "x" (PyStr.lower s))) 2); [contradiction|].
    reflexivity.
  - destruct (PyStr.is_empty s || negb (PyStr.contains "x" (PyStr.lower s))); [reflexivity|].
    unfold billet_weight_try. rewrite Hsplit. cbn [length Nat.eqb negb].
    unfold PyFloat.float_of_str.
    destruct Hnum as [Ha|Hb].
    + rewrite Ha. reflexivity.
    + rewrite Hb. destruct (PyFloat.py_float a); reflexivity.
Qed.

(** C5: on a section "WxH" whose parts read as positive numbers the
    estimator returns (W*H*482.0)/10000; on an empty string, a string
    without the separator, one that does not split in two parts, or parts
    that are not numbers, it returns [None]. *)
Theorem billet_weight_of_section (s : string) :
  (forall a b W H,
      PyStr.split "x" (PyStr.lower s) = [a; b] ->
      PyFloat.py_float a = Some W ->
      PyFloat.py_float b = Some H ->
      (0 <? W)%float = true ->
      (0 <? H)%float = true ->
      calculate_billet_weight_from_section (PStr s) =
        Ok (Some (W * H * 482.0 / 10000)%float)) /\
  (malformed_section s ->
   calculate_billet_weight_from_section (PStr s) = Ok None).
Proof.
  split.
  - intros a b W H Hsplit Ha Hb _ _. exact (billet_weight_formula s a b W H Hsplit Ha Hb).
  - apply billet_weight_malformed.
Qed.

Lemma billet_weight_of_section_witness :
  calculate_billet_weight_from_section (PStr "100x100") = Ok (Some 482.0%float) /\
  calculate_billet_weight_from_section (PStr "100") = Ok None.
Proof.
  split.
  - exact (proj1 (billet_weight_of_section "100x100") "100"%string "100"%string
             100%float 100%float eq_refl eq_refl eq_refl eq_refl eq_refl).
  - apply (proj2 (billet_weight_of_section "100")). right; left. reflexivity.
Defined.

(** C10: the estimator makes no positivity check: whenever the two parts
    read as numbers it returns (W*H*482.0)/10000, and "-50x100" gives a
    negative mass. *)
Theorem billet_weight_no_positivity_check :
  (forall s a b W H,
      PyStr.split "x" (PyStr.lower s) = [a; b] ->
      PyFloat.py_float a = Some W ->
      PyFloat.py_float b = Some H ->
      calculate_billet_weight_from_section (PStr s) =
        Ok (Some (W * H * 482.0 / 10000)%float)) /\
  calculate_billet_weight_from_section (PStr "-50x100") = Ok (Some (-241)%float) /\
  calculate_billet_weight_from_section (PStr "0x100") = Ok (Some 0%float) /\
  (-241 <? 0)%float = true.
Proof.
  split; [exact billet_weight_formula|].
  repeat split; vm_compute; reflexivity.
Qed.

(** ** The cutting-waste estimator *)


Lemma numeric_inch_val_empty : numeric_inch_val EmptyString = Ok 0%float.
Proof. reflexivity. Qed.

(** The waste is the band of the parsed value; the early return on an
    empty token agrees with it. *)
Lemma cutting_waste_of_value (s : string) (x : float) :
  numeric_inch_val s = Ok x -> get_cutting_waste_kg s = Ok (waste_band x).
Proof.
  intros Hx. unfold get_cutting_waste_kg.
  destruct (PyStr.is_empty s) eqn:Hs.
  - destruct s; [|discriminate Hs].
    rewrite numeric_inch_val_empty in Hx. injection Hx as <-. reflexivity.
  - rewrite Hx. reflexivity.
Qed.

(** The code computes the value the rule reads, and 0 for a part that is
    no number. *)
Lemma numeric_inch_val_reads (s : string) (x : float) :
  read_inch_token s = Reads x -> numeric_inch_val s = Ok x.
Proof.
  unfold read_inch_token, read_fraction, numeric_inch_val, try_except, inch_value_try,
    PyFloat.float_of_str, PyFloat.truediv.
  destruct (PyStr.split "_" (PyStr.strip (PyStr.remove "_inch" s)))
    as [|p0 [|p1 [|p2 [|p3 ps]]]]; cbn; try discriminate.
  - destruct (PyFloat.py_float p0); [|discriminate]. intros [= <-]. reflexivity.
  - destruct (PyFloat.py_float p0); cbn; [|discriminate].
    destruct (PyFloat.py_float p1); cbn; [|discriminate].
    destruct (_ =? 0)%float; [discriminate|]. intros [= <-]. reflexivity.
  - destruct (PyFloat.py_float p0); cbn;
      [|destruct (PyFloat.py_float p1), (PyFloat.py_float p2);
        try destruct (_ =? 0)%float; discriminate].
    destruct (PyFloat.py_float p1); cbn; [|discriminate].
    destruct (PyFloat.py_float p2); cbn; [|discriminate].
    destruct (_ =? 0)%float; [discriminate|]. intros [= <-]. reflexivity.
Qed.

Lemma numeric_inch_val_bad_number (s : string) :
  read_inch_token s = BadNumber -> numeric_inch_val s = Ok 0%float.
Proof.
  unfold read_inch_token, read_fraction, numeric_inch_val, try_except, inch_value_try,
    PyFloat.float_of_str, PyFloat.truediv.
  destruct (PyStr.split "_" (PyStr.strip (PyStr.remove "_inch" s)))
    as [|p0 [|p1 [|p2 [|p3 ps]]]]; cbn; try discriminate.
  - destruct (PyFloat.py_float p0); [discriminate|]. reflexivity.
  - destruct (PyFloat.py_float p0); cbn; [|reflexivity].
    destruct (PyFloat.py_float p1); cbn; [|reflexivity].
    destruct (_ =? 0)%float; discriminate.
  - destruct (PyFloat.py_float p0); cbn; [|reflexivity].
    destruct (PyFloat.py_float p1); cbn; [|reflexivity].
    destruct (PyFloat.py_float p2); cbn; [|reflexivity].
    destruct (_ =? 0)%float; discriminate.
Qed.

(** A token of more than three parts is valued by its first part. *)
Lemma numeric_inch_val_fallback (s p0 : string) (rest : list string) :
  PyStr.split "_" (PyStr.strip (PyStr.remove "_inch" s)) = p0 :: rest ->
  read_inch_token s = TooManyParts ->
  numeric_inch_val s =
    Ok match PyFloat.py_float p0 with Some x => x | None => 0%float end.
Proof.
  unfold read_inch_token, read_fraction, numeric_inch_val, try_except, inch_value_try,
    PyFloat.float_of_str. intros ->.
  destruct rest as [|p1 [|p2 [|p3 ps]]]; cbn.
  - destruct (PyFloat.py_float p0); discriminate.
  - destruct (PyFloat.py_float p0), (PyFloat.py_float p1);
      try destruct (_ =? 0)%float; discriminate.
  - destruct (PyFloat.py_float p0), (PyFloat.py_float p1), (PyFloat.py_float p2);
      try destruct (_ =? 0)%float; discriminate.
  - intros _. destruct (PyFloat.py_float p0); reflexivity.
Qed.

Lemma waste_band_low (x : float) :
  (x <=? 4)%float = true -> waste_band x = 0.2%float.
Proof.
  intros H. unfold waste_band. rewrite H.
  destruct (x <=? 0)%float; reflexivity.
Qed.

Lemma waste_band_middle (x : float) :
  (4 <? x)%float = true -> (x <=? 8)%float = true -> waste_band x = 0.5%float.
Proof.
  intros H4 H8. unfold waste_band.
  rewrite (FloatOrder.above_excludes_below 4 0 x eq_refl H4).
  rewrite (FloatOrder.above_excludes_below 4 4 x eq_refl H4).
  rewrite H8. reflexivity.
Qed.

Lemma waste_band_high (x : float) :
  (8 <? x)%float = true -> waste_band x = 1.0%float.
Proof.
  intros H8. unfold waste_band.
  rewrite (FloatOrder.above_excludes_below 8 0 x eq_refl H8).
  rewrite (FloatOrder.above_excludes_below 8 4 x eq_refl H8).
  rewrite (FloatOrder.above_excludes_below 8 8 x eq_refl H8).
  destruct (x <=? 12)%float; reflexivity.
Qed.

Lemma waste_of_size_band (x : float) (waste : result float) :
  waste = Ok (waste_band x) -> waste_of_size x waste.
Proof.
  intros ->. unfold waste_of_size. split; [|split].
  - intros H. rewrite (waste_band_low x H). reflexivity.
  - intros H4 H8. rewrite (waste_band_middle x H4 H8). reflexivity.
  - intros H8. rewrite (waste_band_high x H8). reflexivity.
Qed.

(** C6, as stated, fails: a token of more than three parts is a parse
    failure of the rule, and the function does not return 0.2 kg for it
    but the waste of its first part. *)
Lemma four_part_token_is_not_defaulted :
  read_inch_token "9_x_y_z" = TooManyParts /\
  get_cutting_waste_kg "9_x_y_z" = Ok 1.0%float /\
  get_cutting_waste_kg "9_x_y_z" <> Ok 0.2%float.
Proof. split; [|split]; [reflexivity|reflexivity|discriminate]. Qed.

(** C6, amended: for a token that the rule (one part a number, two parts
    a fraction, three parts a whole number plus a fraction) reads as the
    inch value x, the waste is 0.2 kg when x <= 4, 0.5 kg when
    4 < x <= 8 and 1.0 kg when x > 8; it is 0.2 kg for the empty token
    and for a token of at most three parts one of which is no number; a
    token of more than three parts gets the waste of its first part
    alone, 0.2 kg when that part is no number. *)
Theorem cutting_waste_bands (s : string) :
  (forall x, read_inch_token s = Reads x ->
             waste_of_size x (get_cutting_waste_kg s)) /\
  (read_inch_token s = BadNumber -> get_cutting_waste_kg s = Ok 0.2%float) /\
  (s = EmptyString -> get_cutting_waste_kg s = Ok 0.2%float) /\
  (forall p0 rest,
      PyStr.split "_" (PyStr.strip (PyStr.remove "_inch" s)) = p0 :: rest ->
      read_inch_token s = TooManyParts ->
      (forall x, PyFloat.py_float p0 = Some x ->
                 waste_of_size x (get_cutting_waste_kg s)) /\
      (PyFloat.py_float p0 = None -> get_cutting_waste_kg s = Ok 0.2%float)).
Proof.
  split; [|split; [|split]].
  - intros x Hx. apply waste_of_size_band, cutting_waste_of_value.
    exact (numeric_inch_val_reads s x Hx).
  - intros Hbad.
    exact (cutting_waste_of_value s 0%float (numeric_inch_val_bad_number s Hbad)).
  - intros ->. reflexivity.
  - intros p0 rest Hsplit Hmany.
    pose proof (numeric_inch_val_fallback s p0 rest Hsplit Hmany) as Hval. split.
    + intros x Hp0. rewrite Hp0 in Hval.
      apply waste_of_size_band, cutting_waste_of_value, Hval.
    + intros Hp0. rewrite Hp0 in Hval.
      exact (cutting_waste_of_value s 0%float Hval).
Qed.

Lemma cutting_waste_bands_witness :
  get_cutting_waste_kg "1_1_2_inch" = Ok 0.2%float /\
  get_cutting_waste_kg "six" = Ok 0.2%float /\
  get_cutting_waste_kg "9_2" = Ok 0.5%float /\
  get_cutting_waste_kg "6_inch" = Ok 0.5%float /\
  get_cutting_waste_kg "12_inch" = Ok 1.0%float /\
  get_cutting_waste_kg "24" = Ok 1.0%float /\
  get_cutting_waste_kg "9_x_y_z" = Ok 1.0%float.
Proof.
  refine (conj _ (conj _ (conj _ (conj _ (conj _ (conj _ _)))))).
  - exact (proj1 (proj1 (cutting_waste_bands "1_1_2_inch") 1.5%float eq_refl) eq_refl).
  - exact (proj1 (proj2 (cutting_waste_bands "six")) eq_refl).
  - exact (proj1 (proj2 (proj1 (cutting_waste_bands "9_2") 4.5%float eq_refl))
             eq_refl eq_refl).
  - exact (proj1 (proj2 (proj1 (cutting_waste_bands "6_inch") 6%float eq_refl))
             eq_refl eq_refl).
  - exact (proj2 (proj2 (proj1 (cutting_waste_bands "12_inch") 12%float eq_refl))
             eq_refl).
  - exact (proj2 (proj2 (proj1 (cutting_waste_bands "24") 24%float eq_refl)) eq_refl).
  - exact (proj2 (proj2 (proj1 (proj2 (proj2 (proj2 (cutting_waste_bands "9_x_y_z")))
                                  "9"%string ["x"; "y"; "z"]%string eq_refl eq_refl)
                           9%float eq_refl)) eq_refl).
Defined.

(** Only a division by zero escapes the [try] statement. *)
Lemma cutting_waste_raises_only_zero_division (s : string) (e : exn) :
  get_cutting_waste_kg s = Raise e -> e = ZeroDivisionError.
Proof.
  unfold get_cutting_waste_kg, numeric_inch_val, try_except, inch_value_try,
    PyFloat.float_of_str, PyFloat.truediv.
  destruct (PyStr.is_empty s); [discriminate|].
  destruct (PyStr.split "_" (PyStr.strip (PyStr.remove "_inch" s)))
    as [|p0 [|p1 [|p2 [|p3 ps]]]]; cbn;
    repeat match goal with
      | |- context [PyFloat.py_float ?p] => destruct (PyFloat.py_float p); cbn
      | |- context [PrimFloat.eqb ?y 0] => destruct (PrimFloat.eqb y 0); cbn
      end;
    congruence.
Qed.

(** ** Selection changes *)

Lemma clear_selections_length (ks : list nat) (sel : list string) :
  length (clear_selections ks sel) = length sel.
Proof.
  revert sel. induction ks as [|k ks IH]; intros sel; cbn; [reflexivity|].
  unfold clear_selections in IH. rewrite IH. apply length_insert.
Qed.

(** A cleared position holds the empty string, any other is untouched. *)
Lemma clear_selections_lookup (ks : list nat) (sel : list string) (j : nat) :
  clear_selections ks sel !! j =
    if bool_decide (j ∈ ks) && bool_decide (j < length sel)%nat
    then Some EmptyString else sel !! j.
Proof.
  revert sel. induction ks as [|k ks IH]; intros sel.
  - cbn. rewrite bool_decide_eq_false_2; [reflexivity|]. apply not_elem_of_nil.
  - change (clear_selections (k :: ks) sel)
      with (clear_selections ks (<[k := EmptyString]> sel)).
    rewrite IH, length_insert.
    destruct (decide (j < length sel)%nat) as [Hlt|Hge].
    + rewrite (bool_decide_eq_true_2 _ Hlt), !andb_true_r.
      destruct (decide (j ∈ ks)) as [Hin|Hnin].
      * rewrite (bool_decide_eq_true_2 _ Hin).
        rewrite bool_decide_eq_true_2; [reflexivity|]. apply elem_of_cons. by right.
      * rewrite (bool_decide_eq_false_2 _ Hnin).
        destruct (decide (j = k)) as [->|Hne].
        -- rewrite bool_decide_eq_true_2 by (apply elem_of_cons; by left).
           by apply list_lookup_insert_eq.
        -- rewrite bool_decide_eq_false_2.
           ++ apply list_lookup_insert_ne. congruence.
           ++ intros Hin. apply elem_of_cons in Hin as [?|?]; contradiction.
    + rewrite (bool_decide_eq_false_2 _ Hge), !andb_false_r.
      destruct (decide (j = k)) as [->|Hne].
      * rewrite list_insert_ge by lia. reflexivity.
      * apply list_lookup_insert_ne. congruence.
Qed.

(** C4: for every depth i, new value and prior selection path, the
    selection-change operation at depth i stores the new value at depth i
    and sets every selection at a depth greater than i to the empty
    string, whatever those selections were. *)
Theorem selection_change_clears_deeper
    (i : nat) (key value : string) (st : SessionState) :
  widget_values st !! key = Some value ->
  (i < length (selections st))%nat ->
  exists st',
    selection_on_change_callback i key st = Ok st' /\
    selections st' !! i = Some value /\
    (forall k, (i < k < length (selections st))%nat ->
               selections st' !! k = Some EmptyString) /\
    (forall k, (k < i)%nat -> selections st' !! k = selections st !! k) /\
    length (selections st') = length (selections st).
Proof.
  intros Hkey Hi. unfold selection_on_change_callback. rewrite Hkey.
  destruct (Nat.ltb_spec i (length (selections st))) as [_|Hge]; [|lia].
  eexists; split; [reflexivity|]. cbn [selections].
  rewrite length_insert.
  set (ks := seq (i + 1) (length (selections st) - (i + 1))).
  assert (Hks : forall k, k ∈ ks <-> (i < k < length (selections st))%nat).
  { intros k. unfold ks. rewrite elem_of_seq. lia. }
  repeat split.
  - rewrite clear_selections_lookup, length_insert.
    rewrite bool_decide_eq_false_2 by (rewrite Hks; lia).
    by apply list_lookup_insert_eq.
  - intros k Hk. rewrite clear_selections_lookup, length_insert.
    rewrite bool_decide_eq_true_2 by (rewrite Hks; lia).
    rewrite bool_decide_eq_true_2 by lia. reflexivity.
  - intros k Hk. rewrite clear_selections_lookup, length_insert.
    rewrite bool_decide_eq_false_2 by (rewrite Hks; lia).
    apply list_lookup_insert_ne. lia.
  - rewrite clear_selections_length. apply length_insert.
Qed.

Lemma selection_change_clears_deeper_witness :
  exists st',
    selection_on_change_callback 2 "selectbox_level_2"
      {| selections := ["WN"; "2_inch"; "150"; "RF"; "STD"; "100x100"; "A + B"];
         widget_values := {[ "selectbox_level_2"%string := "300"%string ]} |} = Ok st' /\
    selections st' = ["WN"; "2_inch"; "300"; EmptyString; EmptyString; EmptyString; EmptyString]%string.
Proof.
  edestruct (selection_change_clears_deeper 2 "selectbox_level_2" "300"
               {| selections := ["WN"; "2_inch"; "150"; "RF"; "STD"; "100x100"; "A + B"];
                  widget_values := {[ "selectbox_level_2"%string := "300"%string ]} |})
    as (st' & Hcall & _).
  - reflexivity.
  - cbn. lia.
  - exists st'. split; [exact Hcall|].
    vm_compute in Hcall. injection Hcall as <-. reflexivity.
Defined.

(** ** Leaf recognition *)


Lemma is_costable_leaf_iff (v : pyval) :
  is_costable_leaf v = true <->
  exists d, v = PDict d /\ is_Some (d !! "FW"%string) /\ is_Some (d !! "CW"%string).
Proof.
  split.
  - destruct v as [| | | | |d]; cbn; try discriminate.
    unfold PyVal.has_key. rewrite andb_true_r.
    intros H. apply andb_true_iff in H as [Hfw Hcw].
    apply bool_decide_eq_true in Hfw, Hcw. eauto.
  - intros (d & -> & Hfw & Hcw). cbn. unfold PyVal.has_key.
    rewrite !bool_decide_eq_true_2 by assumption. reflexivity.
Qed.

Lemma selected_flange_data_iff
    (flange_database : pyval) (sel : list string) (d : gmap string pyval) :
  selected_flange_data flange_database sel = Some d <->
  active_selection_path sel <> [] /\
  get_nested_value flange_database (active_selection_path sel) = PDict d /\
  is_Some (d !! "FW"%string) /\ is_Some (d !! "CW"%string).
Proof.
  unfold selected_flange_data.
  destruct (active_selection_path sel) as [|p ps].
  { split; [discriminate|]. intros [Hne _]. contradiction. }
  set (node := get_nested_value flange_database (p :: ps)).
  destruct (is_costable_leaf node) eqn:Hleaf.
  - apply is_costable_leaf_iff in Hleaf as (d' & Hnode & Hfw & Hcw).
    rewrite Hnode. split.
    + intros [= <-]. auto.
    + intros (_ & [= <-] & _). reflexivity.
  - split; [discriminate|].
    intros (_ & Hnode & Hfw & Hcw).
    assert (is_costable_leaf node = true) by (apply is_costable_leaf_iff; eauto).
    congruence.
Qed.


(** C3, as stated, fails: a mapping that holds both keys with values that
    are not numbers is recognized as a leaf. *)
Lemma text_weights_recognized_as_leaf :
  is_costable_leaf (PDict text_weight_leaf) = true /\
  leaf_with_numeric_weights (PDict text_weight_leaf) = false /\
  selected_flange_data text_weight_catalog
    (["WN"; "2_inch"]%string ++ replicate 5 EmptyString) = Some text_weight_leaf.
Proof. repeat split; vm_compute; reflexivity. Qed.

(** C3, amended: a node reached by a selection path is recognized as a
    costable leaf if and only if it is a mapping that contains both the
    FW and the CW key, whatever values they hold; a mapping with only one
    of the keys and a value that is not a mapping are never recognized,
    and a mapping with both keys holding numbers always is.  The test is
    the same where the dropdowns are rendered and where the selected
    record is derived. *)
Theorem leaf_recognized_by_keys (node : pyval) :
  (is_costable_leaf node = true <->
   exists d, node = PDict d /\
             is_Some (d !! "FW"%string) /\ is_Some (d !! "CW"%string)) /\
  (forall d, node = PDict d ->
             d !! "FW"%string = None \/ d !! "CW"%string = None ->
             is_costable_leaf node = false) /\
  ((forall d, node <> PDict d) -> is_costable_leaf node = false) /\
  (leaf_with_numeric_weights node = true -> is_costable_leaf node = true) /\
  (forall flange_database sel d,
      get_nested_value flange_database (active_selection_path sel) = node ->
      (selected_flange_data flange_database sel = Some d <->
       active_selection_path sel <> [] /\ node = PDict d /\
       is_Some (d !! "FW"%string) /\ is_Some (d !! "CW"%string))).
Proof.
  split; [|split; [|split; [|split]]].
  - apply is_costable_leaf_iff.
  - intros d Hnode Hmiss.
    destruct (is_costable_leaf node) eqn:Hleaf; [|reflexivity].
    apply is_costable_leaf_iff in Hleaf as (d' & Hnode' & [fw Hfw] & [cw Hcw]).
    rewrite Hnode in Hnode'. injection Hnode' as <-.
    destruct Hmiss; congruence.
  - intros Hnot.
    destruct (is_costable_leaf node) eqn:Hleaf; [|reflexivity].
    apply is_costable_leaf_iff in Hleaf as (d & Hnode & _).
    destruct (Hnot d Hnode).
  - intros Hnum. apply is_costable_leaf_iff.
    unfold leaf_with_numeric_weights in Hnum.
    destruct node as [| | | | |d]; try discriminate.
    exists d. destruct (d !! "FW"%string), (d !! "CW"%string); try discriminate.
    eauto.
  - intros flange_database sel d <-. apply selected_flange_data_iff.
Qed.

Lemma leaf_recognized_by_keys_example :
  selected_flange_data
    (PDict {[ "WN"%string :=
                PDict {[ "2_inch"%string :=
                           PDict {[ "FW"%string := PNum 55; "CW"%string := PNum 50 ]};
                         "3_inch"%string := PDict {[ "FW"%string := PNum 60 ]} ]} ]})
    (["WN"; "3_inch"]%string ++ replicate 5 EmptyString) = None.
Proof. vm_compute. reflexivity. Qed.

(** ** Compound labels *)

Section StripLemmas.

Lemma lstrip_idempotent (s : string) :
  PyStr.lstrip (PyStr.lstrip s) = PyStr.lstrip s.
Proof.
  induction s as [|c s IH]; cbn; [reflexivity|].
  destruct (PyStr.is_space c) eqn:Hc; [exact IH|].
  cbn. rewrite Hc. reflexivity.
Qed.

Lemma lstrip_length (s : string) :
  (String.length (PyStr.lstrip s) <= String.length s)%nat.
Proof.
  induction s as [|c s IH]; cbn; [lia|].
  destruct (PyStr.is_space c); cbn; lia.
Qed.

(** Stripping the two ends in either order gives the same text. *)
Lemma rstrip_lstrip (s : string) :
  PyStr.rstrip (PyStr.lstrip s) = PyStr.lstrip (PyStr.rstrip s).
Proof.
  induction s as [|c s IH]; [reflexivity|].
  cbn [PyStr.lstrip PyStr.rstrip].
  destruct (PyStr.is_space c) eqn:Hc; cbn [andb].
  - rewrite IH. destruct (PyStr.is_empty (PyStr.rstrip s)) eqn:He.
    + destruct (PyStr.rstrip s); [reflexivity|discriminate He].
    + cbn. rewrite Hc. reflexivity.
  - cbn [PyStr.rstrip PyStr.lstrip]. rewrite Hc. reflexivity.
Qed.

Lemma strip_of_rstrip (h1 h2 : string) :
  PyStr.rstrip h1 = PyStr.rstrip h2 -> PyStr.strip h1 = PyStr.strip h2.
Proof.
  unfold PyStr.strip. rewrite !rstrip_lstrip. intros ->. reflexivity.
Qed.

Lemma strip_lstrip (s : string) : PyStr.strip (PyStr.lstrip s) = PyStr.strip s.
Proof. unfold PyStr.strip. rewrite lstrip_idempotent. reflexivity. Qed.

Lemma space_is_not_plus (c : ascii) :
  PyStr.is_space c = true -> Ascii.eqb c "+" = false.
Proof.
  destruct (Ascii.eqb_spec c "+") as [->|]; [discriminate|reflexivity].
Qed.

End StripLemmas.

Section SplitRefinement.


Lemma segments_agree_push (c : ascii) (l1 l2 : list string) :
  segments_agree l1 l2 -> segments_agree (PyStr.push c l1) (PyStr.push c l2).
Proof.
  destruct l1 as [|h1 t1], l2 as [|h2 t2]; cbn; try contradiction.
  intros [Hh Ht]. rewrite Hh. auto.
Qed.

Lemma segments_agree_strip (l1 l2 : list string) :
  segments_agree l1 l2 -> map PyStr.strip l1 = map PyStr.strip l2.
Proof.
  destruct l1 as [|h1 t1], l2 as [|h2 t2]; cbn; try contradiction.
  intros [Hh Ht]. rewrite (strip_of_rstrip h1 h2 Hh), Ht. reflexivity.
Qed.

(** A match of the pattern is a run of whitespace, the "+", and the
    whitespace after it. *)
Lemma match_plus_Some (s rest : string) :
  match_plus s = Some rest ->
  exists ws after,
    PyStr.rstrip ws = EmptyString /\
    PyStr.split "+" s = ws :: PyStr.split "+" after /\
    rest = PyStr.lstrip after /\
    (String.length after < String.length s)%nat.
Proof.
  induction s as [|c s IH]; cbn; [discriminate|].
  destruct (Ascii.eqb c "+") eqn:Hplus.
  - intros [= <-]. exists EmptyString, s. cbn. auto.
  - destruct (PyStr.is_space c) eqn:Hc; [|discriminate].
    intros Hm. destruct (IH Hm) as (ws & after & Hws & Hsplit & Hrest & Hlen).
    exists (String c ws), after. cbn. rewrite Hws, Hc, Hsplit. cbn.
    repeat split; auto.
Qed.

Lemma match_plus_None (c : ascii) (s : string) :
  match_plus (String c s) = None -> Ascii.eqb c "+" = false.
Proof. cbn. destruct (Ascii.eqb c "+"); [discriminate|reflexivity]. Qed.

Lemma split_lstrip (s : string) :
  exists h t,
    PyStr.split "+" s = h :: t /\
    PyStr.split "+" (PyStr.lstrip s) = PyStr.lstrip h :: t.
Proof.
  induction s as [|c s (h & t & Hs & Hl)].
  - exists EmptyString, []. auto.
  - cbn [PyStr.lstrip]. destruct (PyStr.is_space c) eqn:Hc.
    + cbn [PyStr.split]. rewrite (space_is_not_plus c Hc), Hs.
      exists (String c h), t. cbn. rewrite Hc. auto.
    + cbn [PyStr.split]. destruct (Ascii.eqb c "+").
      * exists EmptyString, (PyStr.split "+" s). auto.
      * rewrite Hs. exists (String c h), t. cbn. rewrite Hc. auto.
Qed.

Lemma re_split_plus_from_agrees (fuel : nat) (s : string) :
  (String.length s <= fuel)%nat ->
  segments_agree (re_split_plus_from fuel s) (PyStr.split "+" s).
Proof.
  revert s. induction fuel as [|fuel IH]; intros s Hlen.
  - destruct s; [|cbn in Hlen; lia]. cbn. auto.
  - cbn [re_split_plus_from]. destruct (match_plus s) as [rest|] eqn:Hm.
    + destruct (match_plus_Some s rest Hm) as (ws & after & Hws & Hsplit & -> & Hlt).
      rewrite Hsplit. cbn. split; [symmetry; exact Hws|].
      pose proof (lstrip_length after) as Hl.
      specialize (IH (PyStr.lstrip after) ltac:(lia)).
      destruct (split_lstrip after) as (h & t & Hafter & Hstripped).
      rewrite Hstripped in IH. rewrite Hafter.
      apply segments_agree_strip in IH. rewrite IH. cbn.
      rewrite strip_lstrip. reflexivity.
    + destruct s as [|c s]; [cbn; auto|].
      cbn [PyStr.split]. rewrite (match_plus_None c s Hm).
      apply segments_agree_push, IH. cbn in Hlen. lia.
Qed.

(** Up to surrounding whitespace the regular-expression split is the
    split on the "+" character. *)
Lemma re_split_plus_strip (s : string) :
  map PyStr.strip (re_split_plus s) = map PyStr.strip (PyStr.split "+" s).
Proof.
  apply segments_agree_strip, re_split_plus_from_agrees. unfold re_split_plus. lia.
Qed.

(** Fuel above the length of the text is never exhausted: any two such
    amounts give the same segments. *)
Lemma re_split_plus_fuel (fuel1 fuel2 : nat) (s : string) :
  (String.length s <= fuel1)%nat ->
  (String.length s <= fuel2)%nat ->
  re_split_plus_from fuel1 s = re_split_plus_from fuel2 s.
Proof.
  revert fuel2 s. induction fuel1 as [|fuel1 IH]; intros fuel2 s H1 H2.
  - destruct s; [|cbn in H1; lia]. destruct fuel2; reflexivity.
  - destruct fuel2 as [|fuel2].
    { destruct s; [reflexivity|cbn in H2; lia]. }
    cbn [re_split_plus_from]. destruct (match_plus s) as [rest|] eqn:Hm.
    + destruct (match_plus_Some s rest Hm) as (ws & after & _ & _ & -> & Hlt).
      pose proof (lstrip_length after) as Hl.
      f_equal. apply IH; lia.
    + destruct s as [|c s]; [reflexivity|].
      cbn in H1, H2. f_equal. apply IH; lia.
Qed.

End SplitRefinement.



Lemma split_compound_label_segments (label : string) :
  split_compound_label label =
    (primary_segment label,
     List.filter (fun part => negb (PyStr.is_empty part)) (extra_segments label)).
Proof.
  unfold split_compound_label, primary_segment, extra_segments, label_segments.
  rewrite <- re_split_plus_strip.
  destruct (re_split_plus label) as [|p0 rest] eqn:Hsplit; [|reflexivity].
  pose proof (re_split_plus_from_agrees (String.length label) label (Nat.le_refl _)) as H.
  unfold re_split_plus in Hsplit. rewrite Hsplit in H. destruct H.
Qed.

(** A price stored in the field of a description is the price every
    later registration finds for it. *)
Lemma register_keeps_price
    (extras : list string) (desc : string) (price : float)
    (fields table : gmap string float) :
  fields !! price_key desc = Some price ->
  desc ∈ extras \/ table !! desc = Some price ->
  let '(fields', table') :=
    fold_left
      (fun '(fields, new_extra_flange_prices) d =>
         let fields' :=
           match fields !! price_key d with
           | Some _ => fields
           | None => <[price_key d := 0.0%float]> fields
           end in
         (fields',
          <[d := default 0.0%float (fields' !! price_key d)]> new_extra_flange_prices))
      extras (fields, table) in
  fields' !! price_key desc = Some price /\ table' !! desc = Some price.
Proof.
  revert fields table. induction extras as [|d extras IH]; intros fields table Hf Hin.
  - cbn. destruct Hin as [Hin|Ht]; [|auto]. by apply elem_of_nil in Hin.
  - cbn [fold_left].
    set (fields' := match fields !! price_key d with
                    | Some _ => fields
                    | None => <[price_key d := 0.0%float]> fields
                    end).
    assert (Hf' : fields' !! price_key desc = Some price).
    { unfold fields'. destruct (fields !! price_key d) eqn:Hd; [exact Hf|].
      rewrite lookup_insert_ne; [exact Hf|]. congruence. }
    apply IH; [exact Hf'|].
    destruct (decide (d = desc)) as [->|Hne].
    + right. rewrite lookup_insert_eq, Hf'. reflexivity.
    + destruct Hin as [Hin|Ht].
      * left. apply elem_of_cons in Hin as [?|?]; [congruence|assumption].
      * right. rewrite lookup_insert_ne; assumption.
Qed.

(** A key holds word characters only, and a key is its own key. *)
Lemma sub_nonword_runs_word (in_run : bool) (s : string) :
  all_word (sub_nonword_runs in_run s) = true.
Proof.
  revert in_run. induction s as [|c s IH]; intros in_run; cbn; [reflexivity|].
  destruct (PyStr.is_word c) eqn:Hc.
  - cbn. rewrite Hc, IH. reflexivity.
  - destruct in_run; [apply IH|]. cbn. apply IH.
Qed.

Lemma sub_nonword_runs_word_text (in_run : bool) (s : string) :
  all_word s = true -> sub_nonword_runs in_run s = s.
Proof.
  revert in_run. induction s as [|c s IH]; intros in_run; cbn; [reflexivity|].
  intros H. apply andb_true_iff in H as [Hc Hs]. rewrite Hc, (IH false Hs). reflexivity.
Qed.

Lemma create_safe_key_idempotent (desc : string) :
  create_safe_key (create_safe_key desc) = create_safe_key desc.
Proof. apply sub_nonword_runs_word_text, sub_nonword_runs_word. Qed.

(** C9, as stated, fails: a segment that is blank is not an extra flange. *)
Lemma blank_segment_is_not_an_extra :
  extra_segments "TypeA + " = [EmptyString] /\
  identified_extra_flanges "TypeA + " = [] /\
  identified_extra_flanges "TypeA + " <> extra_segments "TypeA + ".
Proof. split; [|split]; [reflexivity|reflexivity|discriminate]. Qed.

(** C9, amended: splitting a terminal path label on the "+" delimiter,
    whitespace around the segments ignored, gives segment 0 as the
    primary description and the segments 1..n that are not blank as the
    extra flanges, in order ("TypeA + TypeB" gives "TypeA" and
    ["TypeB"]); the price key is a function of the description alone, so
    that a price stored under it is found again by every parse that
    yields the description. *)
Theorem compound_label_parse (label : string) :
  primary_flange_description_for_display label = primary_segment label /\
  identified_extra_flanges label =
    List.filter (fun part => negb (PyStr.is_empty part)) (extra_segments label) /\
  (forall desc price fields,
      desc ∈ identified_extra_flanges label ->
      fields !! price_key desc = Some price ->
      snd (register_extra_flange_prices (identified_extra_flanges label) fields)
        !! desc = Some price /\
      fst (register_extra_flange_prices (identified_extra_flanges label) fields)
        !! price_key desc = Some price) /\
  (forall desc,
      all_word (create_safe_key desc) = true /\
      create_safe_key (create_safe_key desc) = create_safe_key desc) /\
  split_compound_label "TypeA + TypeB" = ("TypeA", ["TypeB"])%string /\
  map price_key (identified_extra_flanges "TypeA + TypeB") = ["price_extra_TypeB"]%string /\
  map price_key (identified_extra_flanges "Other+TypeB  ") = ["price_extra_TypeB"]%string /\
  create_safe_key "Type B / C" = "Type_B_C"%string.
Proof.
  unfold primary_flange_description_for_display, identified_extra_flanges.
  rewrite split_compound_label_segments. cbn [fst snd].
  split; [reflexivity|]. split; [reflexivity|].
  split; [|split; [|repeat split; reflexivity]].
  2:{ intros desc. split; [apply sub_nonword_runs_word|apply create_safe_key_idempotent]. }
  intros desc price fields Hin Hf. unfold register_extra_flange_prices.
  pose proof (register_keeps_price _ desc price fields ∅ Hf (or_introl Hin)) as H.
  destruct (fold_left _ _ _) as [fields' table']. cbn. tauto.
Qed.

Lemma compound_label_parse_witness :
  snd (register_extra_flange_prices (identified_extra_flanges "TypeA + TypeB")
         {[ "price_extra_TypeB"%string := 100%float ]}) !! "TypeB"%string = Some 100%float.
Proof.
  refine (proj1 (proj1 (proj2 (proj2 (compound_label_parse "TypeA + TypeB")))
                   "TypeB"%string 100%float _ _ _)).
  - vm_compute. apply elem_of_cons. left. reflexivity.
  - reflexivity.
Defined.

(** ** The cost calculator *)

Lemma format_f_arg_Ok (v : pyval) (x : float) :
  PyVal.format_f_arg v = Ok x ->
  PyVal.is_number v = true /\ PyVal.is_none v = false /\ x = PyVal.number_value v.
Proof. destruct v; cbn; intros H; try discriminate; injection H as <-; auto. Qed.

(** A run that reaches the results computed every step on the way. *)
Lemma calculate_costs_costed
    (inp : CostInputs) (prices : gmap string float)
    (leaf : gmap string pyval) (path : list string) (b : CostBreakdown) :
  calculate_costs inp prices leaf path = Ok (Costed b) ->
  exists fw billet waste pieces,
    PyVal.is_number (PyVal.get leaf "CW" PNone) = true /\
    PyVal.format_f_arg (PyVal.get leaf "FW" PNone) = Ok fw /\
    calculate_billet_weight_from_section
      (PyVal.get leaf "SECTION" (PStr "N/A")) = Ok billet /\
    get_cutting_waste_kg (nth 1 path EmptyString) = Ok waste /\
    billet_pieces billet
      (PyVal.number_value (PyVal.get leaf "CW" PNone) + waste)%float = Ok pieces /\
    b = cost_chain inp prices (PyVal.number_value (PyVal.get leaf "CW" PNone)) fw
          (ft_flange_final inp (PyVal.get leaf "FT" PNone)) waste pieces
          (extra_flanges_of_path path).
Proof.
  unfold calculate_costs, cost_breakdown.
  destruct (PyVal.is_none (PyVal.get leaf "CW" PNone)
            || PyVal.is_none (PyVal.get leaf "FW" PNone)); [discriminate|].
  destruct (PyVal.format_f_arg (PyVal.get leaf "CW" PNone)) as [cw|] eqn:Hcw;
    [|discriminate].
  apply format_f_arg_Ok in Hcw as (Hnum & _ & ->).
  destruct (PyVal.format_f_arg (PyVal.get leaf "FW" PNone)) as [fw|] eqn:Hfw;
    [|discriminate].
  cbn.
  destruct (calculate_billet_weight_from_section _) as [billet|] eqn:Hbillet;
    [|discriminate].
  cbn.
  destruct (get_cutting_waste_kg _) as [waste|] eqn:Hwaste; [|discriminate].
  cbn.
  destruct (billet_pieces _ _) as [pieces|] eqn:Hpieces; [|discriminate].
  cbn. intros [= <-]. exists fw, billet, waste, pieces. tauto.
Qed.

(** When both weights are numbers and neither the estimators nor the
    rounding-down raise, the run reaches the results. *)
Lemma calculate_costs_returns
    (inp : CostInputs) (prices : gmap string float)
    (leaf : gmap string pyval) (path : list string)
    (cw fw waste : float) (billet : option float) (pieces : option (float * Z)) :
  PyVal.format_f_arg (PyVal.get leaf "CW" PNone) = Ok cw ->
  PyVal.format_f_arg (PyVal.get leaf "FW" PNone) = Ok fw ->
  calculate_billet_weight_from_section (PyVal.get leaf "SECTION" (PStr "N/A")) = Ok billet ->
  get_cutting_waste_kg (nth 1 path EmptyString) = Ok waste ->
  billet_pieces billet (cw + waste)%float = Ok pieces ->
  calculate_costs inp prices leaf path =
    Ok (Costed (cost_chain inp prices cw fw
                  (ft_flange_final inp (PyVal.get leaf "FT" PNone)) waste pieces
                  (extra_flanges_of_path path))).
Proof.
  intros Hcw Hfw Hbillet Hwaste Hpieces. unfold calculate_costs, cost_breakdown.
  destruct (format_f_arg_Ok _ _ Hcw) as (_ & -> & _).
  destruct (format_f_arg_Ok _ _ Hfw) as (_ & -> & _).
  rewrite Hcw, Hfw. cbn. rewrite Hbillet. cbn. rewrite Hwaste. cbn.
  rewrite Hpieces. reflexivity.
Qed.

Lemma cost_chain_follows_formulas
    (inp : CostInputs) (prices : gmap string float) (cw fw : float) (ft : pyval)
    (waste : float) (pieces : option (float * Z)) (extras : list string) :
  follows_formula_chain inp cw (cost_chain inp prices cw fw ft waste pieces extras).
Proof. unfold follows_formula_chain. cbn. repeat split. Qed.

(** The code's effective FT is the specification's. *)
Lemma ft_flange_final_effective (inp : CostInputs) (leaf : gmap string pyval) :
  match effective_ft inp leaf with
  | Some ft =>
      PyVal.is_number (ft_flange_final inp (PyVal.get leaf "FT" PNone)) = true /\
      PyVal.is_none (ft_flange_final inp (PyVal.get leaf "FT" PNone)) = false /\
      PyVal.number_value (ft_flange_final inp (PyVal.get leaf "FT" PNone)) = ft
  | None =>
      PyVal.is_number (ft_flange_final inp (PyVal.get leaf "FT" PNone)) = false
  end.
Proof.
  unfold effective_ft, ft_flange_final.
  destruct (PyVal.get leaf "FT" PNone), (ft_manual_checkbox inp); cbn; auto.
Qed.

Lemma transport_basis_effective
    (inp : CostInputs) (leaf : gmap string pyval) (cw : float) :
  transport_basis cw (ft_flange_final inp (PyVal.get leaf "FT" PNone)) =
    match effective_ft inp leaf with
    | Some ft => (ft, "(based on FT)"%string)
    | None => (cw, "(based on CW as FT not available/provided)"%string)
    end.
Proof.
  pose proof (ft_flange_final_effective inp leaf) as H. unfold transport_basis.
  destruct (effective_ft inp leaf) as [ft|].
  - destruct H as (-> & -> & ->). reflexivity.
  - rewrite H, andb_false_r. reflexivity.
Qed.

Lemma scrap_effective
    (inp : CostInputs) (leaf : gmap string pyval) (fw : float) :
  scrap inp fw (ft_flange_final inp (PyVal.get leaf "FT" PNone)) =
    match effective_ft inp leaf with
    | Some ft =>
        (Some {| scrap_generated_kg_per_piece_gross := step_gross_scrap fw ft;
                 recoverable_scrap_kg_per_piece := (step_gross_scrap fw ft * 0.90)%float;
                 fw_below_ft_warning := (fw <? ft)%float |},
         (step_gross_scrap fw ft * 0.90 * scrap_cost_per_kg_input inp)%float)
    | None => (None, 0%float)
    end.
Proof.
  pose proof (ft_flange_final_effective inp leaf) as H. unfold scrap.
  destruct (effective_ft inp leaf) as [ft|].
  - destruct H as (-> & -> & ->). reflexivity.
  - rewrite H, andb_false_r. reflexivity.
Qed.

Lemma credit_of_empty_table (extras : list string) :
  fold_left
    (fun total desc =>
       (total + default 0%float ((∅ : gmap string float) !! desc))%float)
    extras 0%float = 0%float.
Proof.
  induction extras as [|d extras IH]; [reflexivity|].
  cbn [fold_left]. rewrite lookup_empty. exact IH.
Qed.

(** The income loop with its two guards is the plain sum of step 7. *)
Lemma extra_flange_income_sum (prices : gmap string float) (extras : list string) :
  extra_flange_income prices extras = step_extra_credit prices extras.
Proof.
  unfold extra_flange_income, step_extra_credit.
  destruct extras as [|d extras]; [rewrite andb_false_r; reflexivity|].
  rewrite (bool_decide_eq_false_2 (d :: extras = [])) by discriminate.
  rewrite andb_true_r.
  destruct (decide (prices = ∅)) as [->|Hne].
  - rewrite bool_decide_eq_true_2 by reflexivity. cbn [negb].
    symmetry. apply credit_of_empty_table.
  - rewrite (bool_decide_eq_false_2 _ Hne). reflexivity.
Qed.

Lemma cost_chain_follows_steps
    (inp : CostInputs) (prices : gmap string float)
    (leaf : gmap string pyval) (path : list string)
    (waste : float) (pieces : option (float * Z)) :
  follows_cost_steps inp prices leaf path
    (cost_chain inp prices
       (PyVal.number_value (PyVal.get leaf "CW" PNone))
       (PyVal.number_value (PyVal.get leaf "FW" PNone))
       (ft_flange_final inp (PyVal.get leaf "FT" PNone)) waste pieces
       (extra_flanges_of_path path)).
Proof.
  unfold follows_cost_steps. split; [|split; [|split]].
  - cbn [transportation_weight_basis_kg cost_chain].
    rewrite transport_basis_effective. unfold step_transport_basis.
    destruct (effective_ft inp leaf); reflexivity.
  - cbn [scrap_value_per_piece cost_chain].
    rewrite scrap_effective. unfold step_scrap_value.
    destruct (effective_ft inp leaf); reflexivity.
  - cbn [total_value_from_extra_flanges cost_chain]. apply extra_flange_income_sum.
  - apply cost_chain_follows_formulas.
Qed.

(** C1: for every leaf record and cost inputs, pressing "Calculate
    Costs" computes steelCost = CW * steel price, machining and forging
    cost = labour rate * CW, transportCost = transport rate * basis (FT
    from the data or the manual override, else CW), scrapValue = gross
    scrap * 0.9 * scrap price, extraFlangeCredit = the sum of the entered
    prices, totalCostBeforeProfit = steel + machining + forging +
    transport - scrapValue - extraFlangeCredit, profit = total *
    (percent / 100), costWithProfit = total + profit, tax =
    costWithProfit * 0.19, finalUnitPrice = costWithProfit + tax and
    totalOrderValue = finalUnitPrice * pieceCount; on CW=50, FW=55,
    FT=52, steel 100, scrap 20, machining 10, forging 15, transport 5,
    profit 10%, 2 pieces it yields 5000, 500, 750, 260, scrap value 54,
    total 6456, 7101.6 with profit, tax 1349.304 and a final unit price
    shown as 8450.90. *)
Theorem cost_formula_chain :
  (forall inp prices leaf path b,
      calculate_costs inp prices leaf path = Ok (Costed b) ->
      follows_cost_steps inp prices leaf path b) /\
  (forall inp prices leaf path cw fw waste billet pieces,
      PyVal.format_f_arg (PyVal.get leaf "CW" PNone) = Ok cw ->
      PyVal.format_f_arg (PyVal.get leaf "FW" PNone) = Ok fw ->
      calculate_billet_weight_from_section
        (PyVal.get leaf "SECTION" (PStr "N/A")) = Ok billet ->
      get_cutting_waste_kg (nth 1 path EmptyString) = Ok waste ->
      billet_pieces billet (cw + waste)%float = Ok pieces ->
      exists b,
        calculate_costs inp prices leaf path = Ok (Costed b) /\
        follows_cost_steps inp prices leaf path b) /\
  (exists b,
      calculate_costs example_inputs ∅ example_leaf example_path = Ok (Costed b) /\
      steel_cost_per_piece b = 5000%float /\
      machining_cost_per_piece b = 500%float /\
      forging_cost_per_piece b = 750%float /\
      transportation_cost_per_piece b = 260%float /\
      scrap_value_per_piece b = 54%float /\
      total_cost_per_piece_before_profit b = 6456%float /\
      profit_amount_per_piece b = 645.6%float /\
      cost_with_profit_per_piece b = 7101.6%float /\
      gst_amount_per_piece b = 1349.304%float /\
      final_selling_price_per_piece b = 8450.904%float /\
      final_selling_price_text b = "8450.90"%string /\
      total_order_value b = 16901.808%float) /\
  (exists b,
      calculate_costs manual_ft_inputs credit_prices leaf_without_ft credit_path =
        Ok (Costed b) /\
      transportation_weight_basis_kg b = 52%float /\
      transportation_cost_per_piece b = 260%float /\
      scrap_value_per_piece b = 54%float /\
      total_value_from_extra_flanges b = 100%float /\
      total_cost_per_piece_before_profit b = 6356%float).
Proof.
  split; [|split; [|split]].
  - intros inp prices leaf path b Hrun.
    destruct (calculate_costs_costed _ _ _ _ _ Hrun)
      as (fw & billet & waste & pieces & _ & Hfw & _ & _ & _ & ->).
    apply format_f_arg_Ok in Hfw as (_ & _ & ->).
    apply cost_chain_follows_steps.
  - intros inp prices leaf path cw fw waste billet pieces Hcw Hfw Hbillet Hwaste Hpieces.
    eexists. split.
    + exact (calculate_costs_returns _ _ _ _ _ _ _ _ _ Hcw Hfw Hbillet Hwaste Hpieces).
    + apply format_f_arg_Ok in Hcw as (_ & _ & ->).
      apply format_f_arg_Ok in Hfw as (_ & _ & ->).
      apply cost_chain_follows_steps.
  - eexists. split; [vm_compute; reflexivity|].
    repeat split; vm_compute; reflexivity.
  - eexists. split; [vm_compute; reflexivity|].
    repeat split; vm_compute; reflexivity.
Qed.

Lemma cost_formula_chain_witness :
  exists b,
    calculate_costs example_inputs ∅ example_leaf example_path = Ok (Costed b) /\
    follows_cost_steps example_inputs ∅ example_leaf example_path b.
Proof.
  refine (proj1 (proj2 cost_formula_chain) example_inputs ∅ example_leaf example_path
            50%float 55%float 0.2%float (Some 482.0%float)
            (Some (9.6015936254980065%float, 9)) _ _ _ _ _);
    vm_compute; reflexivity.
Defined.

Lemma transport_basis_number (cw : float) (ft : pyval) :
  PyVal.is_number ft = true ->
  transport_basis cw ft = (PyVal.number_value ft, "(based on FT)"%string).
Proof. destruct ft; cbn; intros H; try discriminate; reflexivity. Qed.

Lemma transport_basis_fallback (cw : float) (ft : pyval) :
  PyVal.is_number ft = false ->
  transport_basis cw ft = (cw, "(based on CW as FT not available/provided)"%string).
Proof. destruct ft; cbn; intros H; try discriminate; reflexivity. Qed.

(** C7: in every calculation the transport cost is the transport rate
    times FT when an FT value, from the data or from the manual override,
    is present and numeric, and the rate times CW otherwise; the label of
    the result tells which basis was used. *)
Theorem transport_cost_basis
    (inp : CostInputs) (prices : gmap string float)
    (leaf : gmap string pyval) (path : list string) (b : CostBreakdown) :
  calculate_costs inp prices leaf path = Ok (Costed b) ->
  (PyVal.is_number (ft_flange_final inp (PyVal.get leaf "FT" PNone)) = true ->
   transportation_cost_per_piece b =
     (transportation_cost_kg_input inp *
      PyVal.number_value (ft_flange_final inp (PyVal.get leaf "FT" PNone)))%float /\
   transportation_basis_label b = "(based on FT)"%string) /\
  (PyVal.is_number (ft_flange_final inp (PyVal.get leaf "FT" PNone)) = false ->
   transportation_cost_per_piece b =
     (transportation_cost_kg_input inp *
      PyVal.number_value (PyVal.get leaf "CW" PNone))%float /\
   transportation_basis_label b =
     "(based on CW as FT not available/provided)"%string) /\
  (PyVal.is_number (PyVal.get leaf "FT" PNone) = true ->
   ft_flange_final inp (PyVal.get leaf "FT" PNone) = PyVal.get leaf "FT" PNone) /\
  (PyVal.is_number (PyVal.get leaf "FT" PNone) = false ->
   ft_manual_checkbox inp = true ->
   ft_flange_final inp (PyVal.get leaf "FT" PNone) = PNum (ft_manual_input inp)) /\
  (PyVal.is_number (PyVal.get leaf "FT" PNone) = false ->
   ft_manual_checkbox inp = false ->
   PyVal.is_number (ft_flange_final inp (PyVal.get leaf "FT" PNone)) = false).
Proof.
  intros Hrun.
  destruct (calculate_costs_costed _ _ _ _ _ Hrun)
    as (fw & billet & waste & pieces & _ & _ & _ & _ & _ & ->).
  cbn [transportation_cost_per_piece transportation_basis_label cost_chain].
  split; [|split; [|split; [|split]]].
  - intros Hnum. rewrite (transport_basis_number _ _ Hnum). auto.
  - intros Hnum. rewrite (transport_basis_fallback _ _ Hnum). auto.
  - unfold ft_flange_final.
    destruct (PyVal.get leaf "FT" PNone); cbn; intros Hnum;
      first [discriminate Hnum | reflexivity].
  - unfold ft_flange_final. intros -> ->. rewrite orb_true_r. reflexivity.
  - unfold ft_flange_final. intros Hnum ->. rewrite Hnum, orb_true_r. exact Hnum.
Qed.

Lemma transport_cost_basis_witness :
  exists b,
    calculate_costs manual_ft_inputs ∅ leaf_without_ft example_path = Ok (Costed b) /\
    transportation_cost_per_piece b = 260%float /\
    transportation_basis_label b = "(based on FT)"%string.
Proof.
  eexists. split; [vm_compute; reflexivity|].
  refine (proj1 (transport_cost_basis manual_ft_inputs ∅ leaf_without_ft example_path
                   _ _) _); vm_compute; reflexivity.
Defined.



(** C2 does not hold of the code: a fraction or mixed number with a zero
    denominator makes the division raise [ZeroDivisionError], which the
    [except] clause does not name; the exception leaves
    [get_cutting_waste_kg] and ends the whole calculation. *)
Theorem zero_denominator_raises :
  get_cutting_waste_kg "1_0" = Raise ZeroDivisionError /\
  get_cutting_waste_kg "2_1_0_inch" = Raise ZeroDivisionError /\
  get_cutting_waste_kg "one_0" = Ok 0.2%float /\
  (forall s e, get_cutting_waste_kg s = Raise e -> e = ZeroDivisionError) /\
  (forall inp prices leaf path cw fw billet,
      PyVal.format_f_arg (PyVal.get leaf "CW" PNone) = Ok cw ->
      PyVal.format_f_arg (PyVal.get leaf "FW" PNone) = Ok fw ->
      calculate_billet_weight_from_section
        (PyVal.get leaf "SECTION" (PStr "N/A")) = Ok billet ->
      nth 1 path EmptyString = "1_0"%string ->
      calculate_costs inp prices leaf path = Raise ZeroDivisionError) /\
  calculate_costs example_inputs ∅ example_leaf ["Weld Neck"; "1_0"; "150"]%string =
    Raise ZeroDivisionError.
Proof.
  split; [reflexivity|]. split; [reflexivity|]. split; [reflexivity|].
  split; [exact cutting_waste_raises_only_zero_division|].
  split; [|vm_compute; reflexivity].
  intros inp prices leaf path cw fw billet Hcw Hfw Hbillet Hinch.
  unfold calculate_costs, cost_breakdown.
  destruct (format_f_arg_Ok _ _ Hcw) as (_ & -> & _).
  destruct (format_f_arg_Ok _ _ Hfw) as (_ & -> & _).
  rewrite Hcw, Hfw. cbn. rewrite Hbillet. cbn. rewrite Hinch. reflexivity.
Qed.

(** * Further properties of the code *)

(** ** Nested lookup *)

Lemma get_nested_value_None (path_list : list string) :
  get_nested_value PNone path_list = PNone.
Proof. destruct path_list; reflexivity. Qed.

(** Looking up a path in two steps gives what looking it up at once
    gives: a key missing in the first part leaves [None], under which
    every further lookup is [None] again. *)
Theorem get_nested_value_app (data_dict : pyval) (p q : list string) :
  get_nested_value data_dict (p ++ q) =
    get_nested_value (get_nested_value data_dict p) q.
Proof.
  revert data_dict. induction p as [|key p IH]; intros data_dict; [reflexivity|].
  cbn. destruct data_dict as [| | | | |d]; try (symmetry; apply get_nested_value_None).
  destruct (d !! key) as [v|]; [apply IH|].
  symmetry. apply get_nested_value_None.
Qed.

(** A path that resolves to something resolves through mappings only:
    every proper prefix of it reaches a mapping that holds the next key. *)
Theorem get_nested_value_resolves (data_dict : pyval) (p : list string) (key : string)
    (q : list string) :
  get_nested_value data_dict (p ++ key :: q) <> PNone ->
  exists d v,
    get_nested_value data_dict p = PDict d /\ d !! key = Some v /\
    get_nested_value data_dict (p ++ key :: q) = get_nested_value v q.
Proof.
  rewrite get_nested_value_app. cbn.
  destruct (get_nested_value data_dict p) as [| | | | |d]; try congruence.
  destruct (d !! key) as [v|] eqn:Hkey; [|congruence].
  intros _. exists d, v. auto.
Qed.

Lemma get_nested_value_resolves_witness :
  exists d v,
    get_nested_value text_weight_catalog ["WN"%string] = PDict d /\
    d !! "2_inch"%string = Some v /\
    get_nested_value text_weight_catalog (["WN"%string] ++ ["2_inch"%string; "FW"%string]) =
      get_nested_value v ["FW"%string].
Proof.
  apply (get_nested_value_resolves text_weight_catalog ["WN"%string] "2_inch"
           ["FW"%string]).
  vm_compute. discriminate.
Defined.

(** ** The source of a dropdown *)

Lemma dropdown_source_take (source : pyval) (sel : list string) (i : nat) :
  (i <= length sel)%nat ->
  dropdown_source source sel i = Ok (follow_selections source (take i sel)).
Proof.
  revert source sel. induction i as [|i IH]; intros source sel Hi.
  { destruct sel; reflexivity. }
  destruct sel as [|key sel]; [cbn in Hi; lia|]. cbn.
  destruct source as [| | | | |d]; try reflexivity.
  destruct (d !! key); [|reflexivity]. apply IH. cbn in Hi. lia.
Qed.

Lemma follow_selections_resolved (source : pyval) (keys : list string) :
  follow_selections source keys = get_nested_value source keys \/
  (follow_selections source keys = PDict ∅ /\ get_nested_value source keys = PNone).
Proof.
  revert source. induction keys as [|key keys IH]; intros source; [left; reflexivity|].
  cbn. destruct source as [| | | | |d]; auto.
  destruct (d !! key); auto.
Qed.

(** The mapping a dropdown at level i lists is the node the selections
    above it resolve to; when they do not resolve it is the empty
    mapping, never an error, as long as the list holds i selections. *)
Theorem dropdown_source_resolves (flange_database : pyval) (sel : list string) (i : nat) :
  (i <= length sel)%nat ->
  exists source,
    dropdown_source flange_database sel i = Ok source /\
    data_source_for_current_dropdown flange_database sel i = source /\
    (source = get_nested_value flange_database (take i sel) \/
     (source = PDict ∅ /\ get_nested_value flange_database (take i sel) = PNone)).
Proof.
  intros Hi. exists (follow_selections flange_database (take i sel)).
  split; [apply dropdown_source_take, Hi|]. split; [reflexivity|].
  apply follow_selections_resolved.
Qed.

Lemma dropdown_source_resolves_witness :
  exists source,
    dropdown_source text_weight_catalog ["WN"; "9_inch"; "150"]%string 2 = Ok source /\
    data_source_for_current_dropdown text_weight_catalog
      ["WN"; "9_inch"; "150"]%string 2 = source /\
    (source = get_nested_value text_weight_catalog (take 2 ["WN"; "9_inch"; "150"]%string) \/
     (source = PDict ∅ /\
      get_nested_value text_weight_catalog (take 2 ["WN"; "9_inch"; "150"]%string) = PNone)).
Proof.
  apply (dropdown_source_resolves text_weight_catalog ["WN"; "9_inch"; "150"]%string 2).
  cbn. lia.
Defined.


(** ** The dropdown rendering loop *)

Lemma take_prefix_of_longer (k : nat) (l1 l2 : list string) :
  take (S k) l1 = take (S k) l2 -> take k l1 = take k l2.
Proof.
  intros H.
  assert (Hmin : (k `min` S k = k)%nat) by lia.
  pose proof (take_take l1 k (S k)) as H1. pose proof (take_take l2 k (S k)) as H2.
  rewrite Hmin in H1, H2. rewrite <- H1, <- H2, H. reflexivity.
Qed.

Lemma blank_is_an_option (source : pyval) :
  EmptyString ∈ options_for_this_level source.
Proof. unfold options_for_this_level. set_solver. Qed.

(** The loop over the levels [k], [k+1], ..., on a list long enough. *)
Lemma render_levels_spec (flange_database : pyval) (n : nat) :
  forall (k : nat) (sel : list string),
    (k + n <= length sel)%nat ->
    exists sel' boxes,
      render_levels flange_database (seq k n) sel = Ok (sel', boxes) /\
      length sel' = length sel /\
      take k sel' = take k sel /\
      (forall j, sel' !! j = sel !! j \/ (sel' !! j = Some EmptyString /\ (k <= j)%nat)) /\
      map box_level boxes = seq k (length boxes) /\
      (length boxes <= n)%nat /\
      Forall (box_consistent flange_database sel') boxes.
Proof.
  induction n as [|n IH]; intros k sel Hlen.
  { exists sel, []. cbn. repeat split; auto. }
  cbn [seq render_levels]. rewrite dropdown_source_take by lia. cbn.
  set (source := follow_selections flange_database (take k sel)).
  destruct (is_costable_leaf source) eqn:Hleaf.
  { exists sel, []. cbn. repeat split; auto. lia. }
  destruct (lookup_lt_is_Some_2 sel k ltac:(lia)) as [current Hcurrent].
  rewrite Hcurrent.
  set (valid := bool_decide (current ∈ options_for_this_level source)).
  set (sel1 := if valid then sel else <[k := EmptyString]> sel).
  assert (Hlen1 : length sel1 = length sel).
  { unfold sel1. destruct valid; [reflexivity|apply length_insert]. }
  assert (Htake1 : take k sel1 = take k sel).
  { unfold sel1. destruct valid; [reflexivity|]. apply take_insert_ge. lia. }
  assert (Hk1 : sel1 !! k = Some (if valid then current else EmptyString)).
  { unfold sel1. destruct valid; [exact Hcurrent|].
    apply list_lookup_insert_eq. lia. }
  assert (Hpt1 : forall j, sel1 !! j = sel !! j \/ (sel1 !! j = Some EmptyString /\ j = k)).
  { intros j. unfold sel1. destruct valid; [auto|].
    destruct (decide (j = k)) as [->|Hne].
    - right. split; [apply list_lookup_insert_eq; lia|reflexivity].
    - left. apply list_lookup_insert_ne. congruence. }
  destruct (IH (S k) sel1 ltac:(lia))
    as (sel' & boxes & Hrun & Hlen' & Htake' & Hpt' & Hlevels & Hcount & Hall).
  rewrite Hrun. cbn.
  eexists sel', (_ :: boxes). split; [reflexivity|].
  assert (Htake : take k sel' = take k sel).
  { rewrite <- Htake1. apply take_prefix_of_longer, Htake'. }
  assert (Hk : sel' !! k = sel1 !! k).
  { rewrite <- (lookup_take_lt sel' (S k) k), <- (lookup_take_lt sel1 (S k) k) by lia.
    rewrite Htake'. reflexivity. }
  split; [congruence|]. split; [exact Htake|]. split; [|split; [|split]].
  - intros j. destruct (Hpt' j) as [Hj|[Hj Hle]].
    + destruct (Hpt1 j) as [Hj1|[Hj1 ->]].
      * left. congruence.
      * right. split; [congruence|lia].
    + right. split; [exact Hj|lia].
  - cbn. rewrite Hlevels. reflexivity.
  - cbn. lia.
  - constructor; [|exact Hall].
    unfold box_consistent. cbn. rewrite Htake. fold source.
    split; [|split; [|split]]; auto.
    + unfold valid. destruct (bool_decide_reflect (current ∈ options_for_this_level source));
        [assumption|apply blank_is_an_option].
    + rewrite Hk. exact Hk1.
Qed.

(** On a selection list that covers every level the rendering loop
    never fails; it keeps the length of the list and changes a selection
    only by blanking it; it renders the levels from the first one on, as
    many as there are before a leaf is reached. *)
Theorem render_dropdowns_blanks_only (flange_database : pyval) (sel : list string) :
  (length level_names <= length sel)%nat ->
  exists sel' boxes,
    render_dropdowns flange_database sel = Ok (sel', boxes) /\
    length sel' = length sel /\
    (forall j, sel' !! j = sel !! j \/ sel' !! j = Some EmptyString) /\
    map box_level boxes = seq 0 (length boxes) /\
    (length boxes <= length level_names)%nat.
Proof.
  intros Hlen.
  destruct (render_levels_spec flange_database (length level_names) 0 sel Hlen)
    as (sel' & boxes & Hrun & Hlen' & _ & Hpt & Hlevels & Hcount & _).
  exists sel', boxes. repeat split; auto.
  intros j. destruct (Hpt j) as [?|[? _]]; auto.
Qed.

Lemma render_boxes_consistent
    (flange_database : pyval) (sel sel' : list string) (boxes : list Selectbox) :
  (length level_names <= length sel)%nat ->
  render_dropdowns flange_database sel = Ok (sel', boxes) ->
  Forall (box_consistent flange_database sel') boxes.
Proof.
  intros Hlen Hrun.
  destruct (render_levels_spec flange_database (length level_names) 0 sel Hlen)
    as (sel2 & boxes2 & Hrun2 & _ & _ & _ & _ & _ & Hall).
  unfold render_dropdowns in Hrun. rewrite Hrun2 in Hrun.
  injection Hrun as <- <-. exact Hall.
Qed.

(** After the loop, for every select box the script rendered, the option
    at the index it passed is the selection stored for that level, that
    selection is one of the options passed (so [options.index] found it),
    and the options are the blank and the keys of the mapping that the
    selections above lead to: no stale selection survives in
    [st.session_state.selections]. *)
Theorem render_dropdowns_consistent
    (flange_database : pyval) (sel sel' : list string) (boxes : list Selectbox) :
  (length level_names <= length sel)%nat ->
  render_dropdowns flange_database sel = Ok (sel', boxes) ->
  Forall (box_consistent flange_database sel') boxes.
Proof. exact (render_boxes_consistent flange_database sel sel' boxes). Qed.

Lemma render_dropdowns_blanks_only_witness :
  exists sel' boxes,
    render_dropdowns text_weight_catalog stale_selections = Ok (sel', boxes) /\
    length sel' = length stale_selections /\
    (forall j, sel' !! j = stale_selections !! j \/ sel' !! j = Some EmptyString) /\
    map box_level boxes = seq 0 (length boxes) /\
    (length boxes <= length level_names)%nat.
Proof. apply render_dropdowns_blanks_only. cbn. lia. Defined.

Lemma render_dropdowns_consistent_witness :
  exists sel' boxes,
    render_dropdowns text_weight_catalog stale_selections = Ok (sel', boxes) /\
    Forall (box_consistent text_weight_catalog sel') boxes.
Proof.
  assert (Hlen : (length level_names <= length stale_selections)%nat) by (cbn; lia).
  destruct (render_levels_spec text_weight_catalog (length level_names) 0
              stale_selections Hlen) as (sel' & boxes & Hrun & _).
  exists sel', boxes. split; [exact Hrun|].
  exact (render_dropdowns_consistent text_weight_catalog stale_selections sel' boxes
           Hlen Hrun).
Defined.

Lemma render_levels_fixpoint (flange_database : pyval) (n : nat) :
  forall (k : nat) (sel sel' : list string) (boxes : list Selectbox),
    (k + n <= length sel)%nat ->
    render_levels flange_database (seq k n) sel = Ok (sel', boxes) ->
    render_levels flange_database (seq k n) sel' = Ok (sel', boxes).
Proof.
  induction n as [|n IH]; intros k sel sel' boxes Hlen Hrun.
  { cbn in *. injection Hrun as <- <-. reflexivity. }
  destruct (render_levels_spec flange_database (S n) k sel Hlen)
    as (sel2 & boxes2 & Hrun2 & Hlen2 & Htake2 & _).
  rewrite Hrun in Hrun2. injection Hrun2 as <- <-.
  cbn [seq render_levels] in Hrun |- *.
  rewrite dropdown_source_take in Hrun by lia.
  rewrite dropdown_source_take by lia. rewrite Htake2. cbn in Hrun |- *.
  set (source := follow_selections flange_database (take k sel)) in *.
  destruct (is_costable_leaf source) eqn:Hleaf.
  { injection Hrun as <- <-. reflexivity. }
  destruct (lookup_lt_is_Some_2 sel k ltac:(lia)) as [current Hcurrent].
  rewrite Hcurrent in Hrun.
  set (valid := bool_decide (current ∈ options_for_this_level source)) in *.
  set (sel1 := if valid then sel else <[k := EmptyString]> sel) in *.
  assert (Hlen1 : length sel1 = length sel).
  { unfold sel1. destruct valid; [reflexivity|apply length_insert]. }
  destruct (render_levels_spec flange_database n (S k) sel1 ltac:(lia))
    as (sel3 & boxes3 & Hrun3 & _ & Htake3 & _).
  rewrite Hrun3 in Hrun. cbn in Hrun. injection Hrun as <- <-.
  assert (Hk : sel3 !! k = Some (if valid then current else EmptyString)).
  { rewrite <- (lookup_take_lt sel3 (S k) k) by lia. rewrite Htake3.
    rewrite lookup_take_lt by lia. unfold sel1. destruct valid; [exact Hcurrent|].
    apply list_lookup_insert_eq. lia. }
  rewrite Hk.
  assert (Hshown : bool_decide
            ((if valid then current else EmptyString) ∈ options_for_this_level source)
            = true).
  { apply bool_decide_eq_true. unfold valid.
    destruct (bool_decide_reflect (current ∈ options_for_this_level source));
      [assumption|apply blank_is_an_option]. }
  rewrite Hshown. rewrite (IH (S k) sel1 sel3 boxes3 ltac:(lia) Hrun3). reflexivity.
Qed.

(** Rendering is idempotent: the selections a rendering leaves are
    valid, so rendering them again changes nothing and shows the same
    select boxes. *)
Theorem render_dropdowns_idempotent
    (flange_database : pyval) (sel sel' : list string) (boxes : list Selectbox) :
  (length level_names <= length sel)%nat ->
  render_dropdowns flange_database sel = Ok (sel', boxes) ->
  render_dropdowns flange_database sel' = Ok (sel', boxes).
Proof. intros Hlen. apply render_levels_fixpoint. exact Hlen. Qed.

Lemma render_dropdowns_idempotent_witness :
  exists sel' boxes,
    render_dropdowns text_weight_catalog stale_selections = Ok (sel', boxes) /\
    render_dropdowns text_weight_catalog sel' = Ok (sel', boxes).
Proof.
  assert (Hlen : (length level_names <= length stale_selections)%nat) by (cbn; lia).
  destruct (render_levels_spec text_weight_catalog (length level_names) 0
              stale_selections Hlen) as (sel' & boxes & Hrun & _).
  exists sel', boxes. split; [exact Hrun|].
  exact (render_dropdowns_idempotent text_weight_catalog stale_selections sel' boxes
           Hlen Hrun).
Defined.

Lemma follow_selections_missing (source : pyval) (keys : list string) (i : nat)
    (key : string) :
  keys !! i = Some key ->
  (forall d, follow_selections source (take i keys) = PDict d -> d !! key = None) ->
  follow_selections source keys = PDict ∅.
Proof.
  revert source i. induction keys as [|k0 keys IH]; intros source i Hkey Hmiss.
  { destruct i; discriminate Hkey. }
  destruct i as [|i].
  - cbn in Hkey. injection Hkey as ->. cbn in Hmiss |- *.
    destruct source as [| | | | |d]; try reflexivity.
    rewrite (Hmiss d eq_refl). reflexivity.
  - cbn in Hkey, Hmiss |- *. destruct source as [| | | | |d]; try reflexivity.
    destruct (d !! k0) as [v|]; [|reflexivity].
    exact (IH v i Hkey Hmiss).
Qed.

(** A blank level closes the path: when a rendered level is left blank,
    and the blank is no key of the mapping shown there, every deeper
    rendered level is blank as well. *)
Theorem render_dropdowns_blank_closes_path
    (flange_database : pyval) (sel sel' : list string) (boxes : list Selectbox)
    (w1 w2 : Selectbox) :
  (length level_names <= length sel)%nat ->
  render_dropdowns flange_database sel = Ok (sel', boxes) ->
  w1 ∈ boxes -> w2 ∈ boxes ->
  (box_level w1 < box_level w2)%nat ->
  box_selected w1 = EmptyString ->
  (forall d, follow_selections flange_database (take (box_level w1) sel') = PDict d ->
             d !! EmptyString = None) ->
  box_selected w2 = EmptyString.
Proof.
  intros Hlen Hrun Hin1 Hin2 Hlt Hblank Hnokey.
  pose proof (render_boxes_consistent flange_database sel sel' boxes Hlen Hrun) as Hall.
  rewrite Forall_forall in Hall.
  destruct (Hall w1 Hin1) as (_ & Hsel1 & _ & _).
  destruct (Hall w2 Hin2) as (Hopt2 & Hsel2 & Hoptions2 & _).
  rewrite Hblank in Hsel1.
  assert (Hsrc : follow_selections flange_database (take (box_level w2) sel') = PDict ∅).
  { apply (follow_selections_missing _ _ (box_level w1) EmptyString).
    - rewrite lookup_take_lt by lia. exact Hsel1.
    - intros d Hd. apply Hnokey. rewrite <- Hd. f_equal.
      assert (Hmin : (box_level w1 `min` box_level w2 = box_level w1)%nat) by lia.
      rewrite take_take, Hmin. reflexivity. }
  rewrite Hoptions2, Hsrc in Hopt2. unfold options_for_this_level in Hopt2.
  rewrite dom_empty_L, union_empty_r_L in Hopt2.
  apply elem_of_singleton in Hopt2. exact Hopt2.
Qed.

Lemma render_dropdowns_blank_closes_path_witness :
  exists sel' boxes w1 w2,
    render_dropdowns text_weight_catalog stale_selections = Ok (sel', boxes) /\
    boxes !! 1%nat = Some w1 /\ boxes !! 2%nat = Some w2 /\
    box_selected w2 = EmptyString.
Proof.
  assert (Hlen : (length level_names <= length stale_selections)%nat) by (cbn; lia).
  destruct (render_levels_spec text_weight_catalog (length level_names) 0
              stale_selections Hlen) as (sel' & boxes & Hrun & _).
  pose proof Hrun as Hvalue. vm_compute in Hvalue.
  destruct boxes as [|w0 [|w1 [|w2 boxes]]]; try discriminate Hvalue.
  exists sel', (w0 :: w1 :: w2 :: boxes), w1, w2.
  split; [exact Hrun|]. split; [reflexivity|]. split; [reflexivity|].
  injection Hvalue as Hsel Hw0 Hw1 Hw2 Hrest.
  apply (render_dropdowns_blank_closes_path text_weight_catalog stale_selections sel'
           (w0 :: w1 :: w2 :: boxes) w1 w2 Hlen Hrun).
  - apply elem_of_cons. right. apply elem_of_cons. left. reflexivity.
  - do 2 (apply elem_of_cons; right). apply elem_of_cons. left. reflexivity.
  - rewrite <- Hw1, <- Hw2. cbn. lia.
  - rewrite <- Hw1. reflexivity.
  - rewrite <- Hw1, <- Hsel. intros d Hd. vm_compute in Hd.
    injection Hd as <-. reflexivity.
Defined.

(** ** The estimators, further *)

(** On every string the billet estimator returns: the [except] clause
    names all that its [try] block can raise.  It returns a mass exactly
    when the lower-cased text splits at "x" in two parts that both read
    as numbers, and the mass is then the formula's. *)
Theorem billet_weight_returns (s : string) :
  (exists r, calculate_billet_weight_from_section (PStr s) = Ok r) /\
  (forall mass,
      calculate_billet_weight_from_section (PStr s) = Ok (Some mass) <->
      exists a b W H,
        PyStr.split "x" (PyStr.lower s) = [a; b] /\
        PyFloat.py_float a = Some W /\ PyFloat.py_float b = Some H /\
        mass = (W * H * 482.0 / 10000)%float).
Proof.
  split; [apply billet_weight_total|].
  intros mass. split.
  - unfold calculate_billet_weight_from_section.
    destruct (PyStr.is_empty s || negb (PyStr.contains "x" (PyStr.lower s)));
      [discriminate|].
    unfold billet_weight_try.
    destruct (PyStr.split "x" (PyStr.lower s)) as [|a [|b [|c parts]]];
      cbn; try discriminate.
    unfold PyFloat.float_of_str.
    destruct (PyFloat.py_float a) as [W|] eqn:Ha; cbn; [|discriminate].
    destruct (PyFloat.py_float b) as [H|] eqn:Hb; cbn; [|discriminate].
    intros [= <-]. exists a, b, W, H. auto.
  - intros (a & b & W & H & Hsplit & Ha & Hb & ->).
    exact (billet_weight_formula s a b W H Hsplit Ha Hb).
Qed.

Lemma lower_char_idempotent (c : ascii) :
  PyStr.lower_char (PyStr.lower_char c) = PyStr.lower_char c.
Proof.
  destruct c as [[] [] [] [] [] [] [] []]; reflexivity.
Qed.

Lemma lower_idempotent (s : string) : PyStr.lower (PyStr.lower s) = PyStr.lower s.
Proof.
  induction s as [|c s IH]; cbn; [reflexivity|].
  rewrite lower_char_idempotent, IH. reflexivity.
Qed.

Lemma lower_is_empty (s : string) : PyStr.is_empty (PyStr.lower s) = PyStr.is_empty s.
Proof. destruct s; reflexivity. Qed.

(** The estimator does not tell upper from lower case: "100X50" and
    "100x50" give the same result, as do "1E2x3" and "1e2x3". *)
Theorem billet_weight_case_insensitive (s : string) :
  calculate_billet_weight_from_section (PStr (PyStr.lower s)) =
    calculate_billet_weight_from_section (PStr s).
Proof.
  unfold calculate_billet_weight_from_section, billet_weight_try.
  rewrite lower_is_empty, !lower_idempotent. reflexivity.
Qed.

(** ** Cutting waste, further *)

(** [get_cutting_waste_kg] fails exactly on a fraction or a mixed number
    whose parts all read as numbers and whose denominator is zero; on
    every other token it returns. *)
Theorem cutting_waste_fails_iff_zero_denominator (s : string) :
  (exists e, get_cutting_waste_kg s = Raise e) <->
  (exists a b x y,
      PyStr.split "_" (PyStr.strip (PyStr.remove "_inch" s)) = [a; b] /\
      PyFloat.py_float a = Some x /\ PyFloat.py_float b = Some y /\
      (y =? 0)%float = true) \/
  (exists a b c x y z,
      PyStr.split "_" (PyStr.strip (PyStr.remove "_inch" s)) = [a; b; c] /\
      PyFloat.py_float a = Some x /\ PyFloat.py_float b = Some y /\
      PyFloat.py_float c = Some z /\ (z =? 0)%float = true).
Proof.
  unfold get_cutting_waste_kg, numeric_inch_val, try_except, inch_value_try,
    PyFloat.float_of_str, PyFloat.truediv.
  destruct s as [|c0 s0]; cbn [PyStr.is_empty].
  { split; [intros [e He]; discriminate He|].
    intros [(a & b & x & y & Hsplit & _)|(a & b & c & x & y & z & Hsplit & _)];
      discriminate Hsplit. }
  set (parts := PyStr.split "_" (PyStr.strip (PyStr.remove "_inch" (String c0 s0)))).
  destruct parts as [|p0 [|p1 [|p2 [|p3 ps]]]]; cbn.
  - split; [intros [e He]; discriminate He|].
    intros [(a & b & x & y & Hsplit & _)|(a & b & c & x & y & z & Hsplit & _)];
      discriminate Hsplit.
  - split.
    + destruct (PyFloat.py_float p0); cbn; intros [e He]; discriminate He.
    + intros [(a & b & x & y & Hsplit & _)|(a & b & c & x & y & z & Hsplit & _)];
        discriminate Hsplit.
  - split.
    + destruct (PyFloat.py_float p0) as [x|] eqn:H0; cbn;
        [|intros [e He]; discriminate He].
      destruct (PyFloat.py_float p1) as [y|] eqn:H1; cbn;
        [|intros [e He]; discriminate He].
      destruct (y =? 0)%float eqn:Hy; cbn; [|intros [e He]; discriminate He].
      intros _. left. exists p0, p1, x, y. auto.
    + intros [(a & b & x & y & Hsplit & Ha & Hb & Hy)
             |(a & b & c & x & y & z & Hsplit & _)]; [|discriminate Hsplit].
      injection Hsplit as <- <-. rewrite Ha, Hb. cbn. rewrite Hy. cbn. eauto.
  - split.
    + destruct (PyFloat.py_float p0) as [x|] eqn:H0; cbn;
        [|intros [e He]; discriminate He].
      destruct (PyFloat.py_float p1) as [y|] eqn:H1; cbn;
        [|intros [e He]; discriminate He].
      destruct (PyFloat.py_float p2) as [z|] eqn:H2; cbn;
        [|intros [e He]; discriminate He].
      destruct (z =? 0)%float eqn:Hz; cbn; [|intros [e He]; discriminate He].
      intros _. right. exists p0, p1, p2, x, y, z. auto.
    + intros [(a & b & x & y & Hsplit & _)
             |(a & b & c & x & y & z & Hsplit & Ha & Hb & Hc & Hz)];
        [discriminate Hsplit|].
      injection Hsplit as <- <- <-. rewrite Ha, Hb, Hc. cbn. rewrite Hz. cbn. eauto.
  - split.
    + destruct (PyFloat.py_float p0); cbn; intros [e He]; discriminate He.
    + intros [(a & b & x & y & Hsplit & _)|(a & b & c & x & y & z & Hsplit & _)];
        discriminate Hsplit.
Qed.

Lemma SFleb_trans (x y z : spec_float) :
  SFleb x y = true -> SFleb y z = true -> SFleb x z = true.
Proof.
  unfold SFleb.
  destruct x as [sx|sx| |sx mx ex], y as [sy|sy| |sy my ey], z as [sz|sz| |sz mz ez];
    rewrite ?FloatOrder.SFcompare_finite;
    try destruct sx; try destruct sy; try destruct sz;
    try (cbn; first [discriminate | reflexivity]).
  all: pose proof (FloatOrder.mag_compare_spec mx ex my ey) as Hxy;
       pose proof (FloatOrder.mag_compare_spec my ey mz ez) as Hyz;
       pose proof (FloatOrder.mag_compare_spec mx ex mz ez) as Hxz;
       unfold FloatMag.mag_lt in *.
  all: destruct (FloatMag.mag_compare mx ex my ey), (FloatMag.mag_compare my ey mz ez),
         (FloatMag.mag_compare mx ex mz ez);
       cbn; try discriminate; try reflexivity; exfalso; lia.
Qed.

Lemma leb_trans (x y z : float) :
  (x <=? y)%float = true -> (y <=? z)%float = true -> (x <=? z)%float = true.
Proof. rewrite !leb_spec. apply SFleb_trans. Qed.

Lemma waste_band_monotone (x y : float) :
  (x <=? y)%float = true -> (waste_band x <=? waste_band y)%float = true.
Proof.
  intros Hxy.
  assert (Hdown : forall c, (y <=? c)%float = true -> (x <=? c)%float = true).
  { intros c. apply leb_trans, Hxy. }
  unfold waste_band.
  destruct (y <=? 0)%float eqn:Hy0.
  { rewrite (Hdown 0%float Hy0). reflexivity. }
  destruct (y <=? 4)%float eqn:Hy4.
  { pose proof (Hdown 4%float Hy4) as Hx4. rewrite Hx4.
    destruct (x <=? 0)%float; reflexivity. }
  destruct (y <=? 8)%float eqn:Hy8.
  { pose proof (Hdown 8%float Hy8) as Hx8. rewrite Hx8.
    destruct (x <=? 0)%float, (x <=? 4)%float; reflexivity. }
  destruct (y <=? 12)%float;
    destruct (x <=? 0)%float, (x <=? 4)%float, (x <=? 8)%float, (x <=? 12)%float;
    reflexivity.
Qed.

Lemma waste_band_values (x : float) :
  waste_band x = 0.2%float \/ waste_band x = 0.5%float \/ waste_band x = 1.0%float.
Proof.
  unfold waste_band.
  destruct (x <=? 0)%float, (x <=? 4)%float, (x <=? 8)%float, (x <=? 12)%float; auto.
Qed.

(** The waste allowance never decreases when the size grows: of two
    tokens with parsed values x <= y the first gets at most the waste of
    the second; and every waste returned is 0.2, 0.5 or 1.0 kg. *)
Theorem cutting_waste_monotone (s1 s2 : string) (x y : float) :
  numeric_inch_val s1 = Ok x ->
  numeric_inch_val s2 = Ok y ->
  (x <=? y)%float = true ->
  exists w1 w2,
    get_cutting_waste_kg s1 = Ok w1 /\ get_cutting_waste_kg s2 = Ok w2 /\
    (w1 <=? w2)%float = true /\
    (w1 = 0.2%float \/ w1 = 0.5%float \/ w1 = 1.0%float).
Proof.
  intros H1 H2 Hxy. exists (waste_band x), (waste_band y).
  split; [exact (cutting_waste_of_value s1 x H1)|].
  split; [exact (cutting_waste_of_value s2 y H2)|].
  split; [exact (waste_band_monotone x y Hxy)|apply waste_band_values].
Qed.

Lemma cutting_waste_monotone_witness :
  exists w1 w2,
    get_cutting_waste_kg "3_1_2_inch" = Ok w1 /\ get_cutting_waste_kg "10_inch" = Ok w2 /\
    (w1 <=? w2)%float = true /\
    (w1 = 0.2%float \/ w1 = 0.5%float \/ w1 = 1.0%float).
Proof.
  apply (cutting_waste_monotone "3_1_2_inch" "10_inch" 3.5 10); reflexivity.
Defined.

(** ** Selection changes, further *)

Lemma filter_replicate_blank (n : nat) :
  active_selection_path (replicate n EmptyString) = [].
Proof. induction n as [|n IH]; [reflexivity|exact IH]. Qed.

(** The list a selection change leaves: the selections above the changed
    level as they were, the new value, and blanks below.  The active path
    is therefore the active part of the levels above followed by the new
    value, or by nothing when the blank option was chosen. *)
Theorem selection_change_result (i : nat) (key value : string) (st : SessionState) :
  widget_values st !! key = Some value ->
  (i < length (selections st))%nat ->
  exists st',
    selection_on_change_callback i key st = Ok st' /\
    widget_values st' = widget_values st /\
    selections st' =
      take i (selections st) ++ value ::
      replicate (length (selections st) - S i) EmptyString /\
    active_selection_path (selections st') =
      active_selection_path (take i (selections st)) ++
      (if PyStr.is_empty value then [] else [value]).
Proof.
  intros Hkey Hi. unfold selection_on_change_callback. rewrite Hkey.
  destruct (Nat.ltb_spec i (length (selections st))) as [_|Hge]; [|lia].
  eexists. split; [reflexivity|]. cbn [selections widget_values].
  split; [reflexivity|].
  assert (Hsel :
    clear_selections
      (seq (i + 1) (length (<[i:=value]> (selections st)) - (i + 1)))
      (<[i:=value]> (selections st)) =
    take i (selections st) ++ value ::
    replicate (length (selections st) - S i) EmptyString).
  { apply list_eq. intros j.
    rewrite clear_selections_lookup, !length_insert.
    destruct (decide (j < i)%nat) as [Hlt|Hnlt].
    - rewrite bool_decide_eq_false_2 by (rewrite elem_of_seq; lia). cbn.
      rewrite list_lookup_insert_ne by lia.
      rewrite lookup_app_l by (rewrite length_take; lia).
      rewrite lookup_take_lt by lia. reflexivity.
    - rewrite lookup_app_r by (rewrite length_take; lia).
      rewrite length_take, Nat.min_l by lia.
      destruct (decide (j = i)) as [->|Hne].
      + rewrite bool_decide_eq_false_2 by (rewrite elem_of_seq; lia). cbn.
        rewrite Nat.sub_diag. cbn. apply list_lookup_insert_eq. lia.
      + destruct (j - i)%nat as [|m] eqn:Hm; [lia|]. cbn.
        destruct (decide (j < length (selections st))%nat) as [Hin|Hout].
        * rewrite bool_decide_eq_true_2 by (rewrite elem_of_seq; lia).
          rewrite bool_decide_eq_true_2 by lia. cbn.
          symmetry. apply lookup_replicate_2. lia.
        * rewrite (bool_decide_eq_false_2 (j < _)%nat) by lia.
          rewrite andb_false_r.
          rewrite list_lookup_insert_ne by lia.
          rewrite lookup_ge_None_2 by lia.
          symmetry. apply lookup_ge_None_2. rewrite length_replicate. lia. }
  split; [exact Hsel|]. rewrite Hsel.
  unfold active_selection_path at 1. rewrite List.filter_app. cbn [List.filter].
  fold (active_selection_path (take i (selections st))).
  fold (active_selection_path
          (replicate (length (selections st) - S i) EmptyString)).
  rewrite filter_replicate_blank.
  destruct (PyStr.is_empty value); reflexivity.
Qed.

Lemma selection_change_result_witness :
  exists st',
    selection_on_change_callback 1 "selectbox_level_1"
      {| selections := stale_selections;
         widget_values := {[ "selectbox_level_1"%string := "2_inch"%string ]} |} = Ok st' /\
    active_selection_path (selections st') = ["WN"; "2_inch"]%string.
Proof.
  edestruct (selection_change_result 1 "selectbox_level_1" "2_inch"
               {| selections := stale_selections;
                  widget_values := {[ "selectbox_level_1"%string := "2_inch"%string ]} |})
    as (st' & Hcall & _ & _ & Hpath).
  - reflexivity.
  - cbn. lia.
  - exists st'. split; [exact Hcall|]. rewrite Hpath. reflexivity.
Defined.

(** ** The access gate *)

(** After the callback the gate opens exactly when the entered text is
    the secret; the accepted text is deleted from the session state, a
    refused one stays in it and the page asks again with an error. *)
Theorem password_gate (st : AuthState) (entered : string) :
  password st = Some entered ->
  exists st',
    password_entered st = Ok st' /\
    (check_password st' = true <-> entered = "ranco123"%string) /\
    (check_password st' = true -> password st' = None) /\
    (check_password st' = false ->
     password st' = Some entered /\ check_password_view st' = AskAgainAfterError).
Proof.
  intros Hpw. unfold password_entered. rewrite Hpw.
  destruct (String.eqb_spec entered "ranco123") as [->|Hne].
  - eexists. split; [reflexivity|]. cbn. repeat split; auto; discriminate.
  - eexists. split; [reflexivity|]. cbn.
    repeat split; auto; try discriminate; try congruence.
Qed.

Lemma password_gate_witness :
  exists st',
    password_entered {| password := Some "Ranco123"%string; password_correct := None |}
      = Ok st' /\
    check_password st' = false /\ password st' = Some "Ranco123"%string.
Proof.
  edestruct (password_gate {| password := Some "Ranco123"%string;
                              password_correct := None |} "Ranco123")
    as (st' & Hcall & Hiff & _ & Hkept); [reflexivity|].
  exists st'. split; [exact Hcall|].
  assert (Hdenied : check_password st' = false).
  { destruct (check_password st'); [|reflexivity].
    destruct Hiff as [Hsecret _]. discriminate (Hsecret eq_refl). }
  split; [exact Hdenied|]. exact (proj1 (Hkept Hdenied)).
Defined.

(** ** Scrap and transport *)

(** Scrap is calculated exactly when there is an effective FT, and then
    transport is based on it.  Without one no scrap is reported, the
    scrap value is 0.0 and transport weighs CW.  With an effective FT the
    warning is raised exactly when FW < FT, the gross scrap is then 0.0
    and FW - FT otherwise, 90% of it is recoverable, and the scrap value
    is the recoverable scrap times the scrap rate. *)
Theorem scrap_goes_with_ft_basis
    (inp : CostInputs) (prices : gmap string float)
    (leaf : gmap string pyval) (path : list string) (b : CostBreakdown) :
  calculate_costs inp prices leaf path = Ok (Costed b) ->
  (scrap_report b = None <-> effective_ft inp leaf = None) /\
  (scrap_report b = None <->
   transportation_basis_label b = "(based on CW as FT not available/provided)"%string) /\
  (effective_ft inp leaf = None ->
   scrap_value_per_piece b = 0%float /\
   transportation_weight_basis_kg b = PyVal.number_value (PyVal.get leaf "CW" PNone)) /\
  (forall ft, effective_ft inp leaf = Some ft ->
     exists r,
       scrap_report b = Some r /\
       fw_below_ft_warning r =
         (PyVal.number_value (PyVal.get leaf "FW" PNone) <? ft)%float /\
       scrap_generated_kg_per_piece_gross r =
         (if (PyVal.number_value (PyVal.get leaf "FW" PNone) <? ft)%float
          then 0%float
          else (PyVal.number_value (PyVal.get leaf "FW" PNone) - ft)%float) /\
       recoverable_scrap_kg_per_piece r =
         (scrap_generated_kg_per_piece_gross r * 0.9)%float /\
       scrap_value_per_piece b =
         (recoverable_scrap_kg_per_piece r * scrap_cost_per_kg_input inp)%float /\
       transportation_basis_label b = "(based on FT)"%string /\
       transportation_weight_basis_kg b = ft).
Proof.
  intros Hrun.
  destruct (calculate_costs_costed _ _ _ _ _ Hrun)
    as (fw & billet & waste & pieces & _ & Hfw & _ & _ & _ & ->).
  apply format_f_arg_Ok in Hfw as (_ & _ & ->).
  cbn [scrap_report transportation_basis_label scrap_value_per_piece
       transportation_weight_basis_kg cost_chain].
  rewrite scrap_effective, transport_basis_effective.
  destruct (effective_ft inp leaf) as [ft|]; cbn [fst snd].
  - split; [split; discriminate|]. split; [split; discriminate|].
    split; [discriminate|].
    intros ft' [= <-]. eexists. split; [reflexivity|]. cbn. repeat split.
  - split; [split; reflexivity|]. split; [split; reflexivity|].
    split; [auto|]. discriminate.
Qed.

Lemma scrap_goes_with_ft_basis_witness :
  exists b r,
    calculate_costs example_inputs ∅ leaf_below_ft example_path = Ok (Costed b) /\
    scrap_report b = Some r /\
    fw_below_ft_warning r = true /\
    scrap_generated_kg_per_piece_gross r = 0%float /\
    scrap_value_per_piece b = (0 * 0.9 * 20)%float.
Proof.
  assert (Hrun : calculate_costs example_inputs ∅ leaf_below_ft example_path =
                 Ok (Costed (cost_chain example_inputs ∅ 50 50 (PNum 52) 0.2
                               (Some (9.6015936254980065%float, 9)) [])))
    by (vm_compute; reflexivity).
  destruct (proj2 (proj2 (proj2 (scrap_goes_with_ft_basis example_inputs ∅ leaf_below_ft
                                   example_path _ Hrun))) 52%float eq_refl)
    as (r & Hreport & Hwarn & Hgross & Hrec & Hvalue & _).
  eexists. exists r. split; [exact Hrun|]. split; [exact Hreport|].
  split; [exact Hwarn|]. split; [exact Hgross|].
  rewrite Hvalue, Hrec, Hgross. reflexivity.
Defined.

(** ** Extra-flange prices *)

Lemma income_fold_ext (t1 t2 : gmap string float) (extras : list string) (acc : float) :
  (forall d, d ∈ extras -> t1 !! d = t2 !! d) ->
  fold_left
    (fun total desc =>
       (total + match t1 !! desc with Some price => price | None => 0.0 end)%float)
    extras acc =
  fold_left
    (fun total desc =>
       (total + match t2 !! desc with Some price => price | None => 0.0 end)%float)
    extras acc.
Proof.
  revert acc. induction extras as [|d extras IH]; intros acc Hagree; [reflexivity|].
  cbn. rewrite (Hagree d) by (apply elem_of_cons; by left).
  apply IH. intros d' Hd'. apply Hagree, elem_of_cons. by right.
Qed.

Lemma income_fold_unpriced (t : gmap string float) (extras : list string) :
  (forall d, d ∈ extras -> t !! d = None) ->
  fold_left
    (fun total desc =>
       (total + match t !! desc with Some price => price | None => 0.0 end)%float)
    extras 0%float = 0%float.
Proof.
  induction extras as [|d extras IH]; intros Hnone; [reflexivity|].
  cbn. rewrite (Hnone d) by (apply elem_of_cons; by left).
  change (0 + 0.0)%float with 0%float.
  apply IH. intros d' Hd'. apply Hnone, elem_of_cons. by right.
Qed.

(** The income from extra flanges depends on the prices of the label's
    own extras only: entries for other descriptions, or their absence,
    change nothing. *)
Theorem extra_flange_income_frame (t1 t2 : gmap string float) (extras : list string) :
  (forall d, d ∈ extras -> t1 !! d = t2 !! d) ->
  extra_flange_income t1 extras = extra_flange_income t2 extras.
Proof.
  intros Hagree. unfold extra_flange_income.
  destruct (bool_decide (extras = [])); [rewrite !andb_false_r; reflexivity|].
  rewrite !andb_true_r.
  destruct (decide (t1 = ∅)) as [->|H1], (decide (t2 = ∅)) as [->|H2].
  - reflexivity.
  - rewrite bool_decide_eq_true_2 by reflexivity.
    rewrite (bool_decide_eq_false_2 _ H2). cbn. symmetry.
    apply income_fold_unpriced. intros d Hd. rewrite <- Hagree by assumption.
    apply lookup_empty.
  - rewrite (bool_decide_eq_false_2 _ H1).
    rewrite bool_decide_eq_true_2 by reflexivity. cbn.
    apply income_fold_unpriced. intros d Hd. rewrite Hagree by assumption.
    apply lookup_empty.
  - rewrite (bool_decide_eq_false_2 _ H1), (bool_decide_eq_false_2 _ H2). cbn.
    apply income_fold_ext, Hagree.
Qed.

Lemma extra_flange_income_frame_witness :
  extra_flange_income credit_prices ["TypeB"%string] =
    extra_flange_income (<[ "TypeC"%string := 7%float ]> credit_prices) ["TypeB"%string].
Proof.
  apply extra_flange_income_frame. intros d Hd.
  apply list_elem_of_singleton in Hd as ->. reflexivity.
Defined.

Lemma register_table
    (extras : list string) (desc : string) (fields table : gmap string float) :
  let '(fields', table') :=
    fold_left
      (fun '(fields, new_extra_flange_prices) d =>
         let fields' :=
           match fields !! price_key d with
           | Some _ => fields
           | None => <[price_key d := 0.0%float]> fields
           end in
         (fields',
          <[d := default 0.0%float (fields' !! price_key d)]> new_extra_flange_prices))
      extras (fields, table) in
  (forall key price, fields !! key = Some price -> fields' !! key = Some price) /\
  (desc ∈ extras ->
   table' !! desc = Some (default 0.0%float (fields !! price_key desc)) /\
   fields' !! price_key desc = Some (default 0.0%float (fields !! price_key desc))) /\
  (desc ∉ extras -> table' !! desc = table !! desc).
Proof.
  revert fields table. induction extras as [|d extras IH]; intros fields table.
  { cbn. split; [auto|]. split; [|auto]. intros Hin. by apply elem_of_nil in Hin. }
  cbn [fold_left].
  set (fields1 := match fields !! price_key d with
                  | Some _ => fields
                  | None => <[price_key d := 0.0%float]> fields
                  end).
  set (table1 := <[d := default 0.0%float (fields1 !! price_key d)]> table).
  assert (Hkeep : forall key price, fields !! key = Some price -> fields1 !! key = Some price).
  { intros key price Hk. unfold fields1.
    destruct (fields !! price_key d) eqn:Hd; [exact Hk|].
    rewrite lookup_insert_ne; [exact Hk|]. congruence. }
  assert (Hnew : forall d', price_key d' = price_key d ->
            fields1 !! price_key d' = Some (default 0.0%float (fields !! price_key d'))).
  { intros d' ->. unfold fields1. destruct (fields !! price_key d) eqn:Hd.
    - rewrite Hd. reflexivity.
    - apply lookup_insert_eq. }
  assert (Hold : forall d', price_key d' <> price_key d ->
            fields1 !! price_key d' = fields !! price_key d').
  { intros d' Hne. unfold fields1. destruct (fields !! price_key d); [reflexivity|].
    apply lookup_insert_ne. congruence. }
  specialize (IH fields1 table1).
  destruct (fold_left _ extras (fields1, table1)) as [fields' table'].
  destruct IH as (IHkeep & IHin & IHout).
  split; [|split].
  - intros key price Hk. apply IHkeep, Hkeep, Hk.
  - intros Hin.
    assert (Hfield : fields1 !! price_key desc =
                     Some (default 0.0%float (fields !! price_key desc))
                     \/ (fields1 !! price_key desc = fields !! price_key desc)).
    { destruct (decide (price_key desc = price_key d)); [left; auto|right; auto]. }
    assert (Hdefault : default 0.0%float (fields1 !! price_key desc) =
                       default 0.0%float (fields !! price_key desc)).
    { destruct Hfield as [-> | ->]; reflexivity. }
    destruct (decide (desc ∈ extras)) as [Hrest|Hrest].
    + destruct (IHin Hrest) as [Ht Hf]. rewrite Ht, Hf, Hdefault. auto.
    + apply elem_of_cons in Hin as [->|Hin]; [|contradiction].
      rewrite (IHout Hrest). unfold table1. rewrite lookup_insert_eq.
      split; [rewrite Hdefault; reflexivity|].
      rewrite <- Hdefault.
      destruct (fields1 !! price_key d) as [p|] eqn:Hp.
      * cbn. apply IHkeep, Hp.
      * rewrite (Hnew d eq_refl) in Hp. discriminate Hp.
  - intros Hnotin. rewrite not_elem_of_cons in Hnotin. destruct Hnotin as [Hne Hrest].
    rewrite (IHout Hrest). unfold table1. apply lookup_insert_ne. congruence.
Qed.

Lemma register_table_lookup
    (extras : list string) (fields : gmap string float) (desc : string) :
  snd (register_extra_flange_prices extras fields) !! desc =
    (if bool_decide (desc ∈ extras)
     then Some (default 0.0%float (fields !! price_key desc))
     else None) /\
  (forall key price,
      fields !! key = Some price ->
      fst (register_extra_flange_prices extras fields) !! key = Some price).
Proof.
  unfold register_extra_flange_prices.
  pose proof (register_table extras desc fields ∅) as H.
  destruct (fold_left _ extras (fields, ∅)) as [fields' table'].
  destruct H as (Hkeep & Hin & Hout). cbn [fst snd]. split; [|exact Hkeep].
  destruct (decide (desc ∈ extras)) as [Hd|Hd].
  - rewrite (bool_decide_eq_true_2 _ Hd). apply Hin, Hd.
  - rewrite (bool_decide_eq_false_2 _ Hd), (Hout Hd). apply lookup_empty.
Qed.

(** Registering the extra flanges of a label builds a price table with
    one entry per extra flange and no other: the price in the flange's
    field, or 0.0 when the field was not there.  The fields themselves
    are never overwritten. *)
Theorem register_extra_flange_prices_table
    (extras : list string) (fields : gmap string float) (desc : string) :
  snd (register_extra_flange_prices extras fields) !! desc =
    (if bool_decide (desc ∈ extras)
     then Some (default 0.0%float (fields !! price_key desc))
     else None) /\
  (forall key price,
      fields !! key = Some price ->
      fst (register_extra_flange_prices extras fields) !! key = Some price).
Proof. exact (register_table_lookup extras fields desc). Qed.

(** Two descriptions with the same normalized key share one price
    field: after a registration both have the same price, so a price
    entered for one is the price of the other. *)
Theorem colliding_descriptions_share_price
    (extras : list string) (fields : gmap string float) (d1 d2 : string) :
  d1 ∈ extras -> d2 ∈ extras ->
  create_safe_key d1 = create_safe_key d2 ->
  snd (register_extra_flange_prices extras fields) !! d1 =
    snd (register_extra_flange_prices extras fields) !! d2.
Proof.
  intros H1 H2 Hkey. unfold register_extra_flange_prices.
  pose proof (register_table extras d1 fields ∅) as Hd1.
  pose proof (register_table extras d2 fields ∅) as Hd2.
  destruct (fold_left _ extras (fields, ∅)) as [fields' table'].
  destruct Hd1 as (_ & Hin1 & _). destruct Hd2 as (_ & Hin2 & _). cbn [snd].
  rewrite (proj1 (Hin1 H1)), (proj1 (Hin2 H2)).
  unfold price_key. rewrite Hkey. reflexivity.
Qed.

Lemma colliding_descriptions_share_price_witness :
  "SO RF"%string <> "SO-RF"%string /\
  snd (register_extra_flange_prices (identified_extra_flanges "WN + SO RF + SO-RF")
         {[ "price_extra_SO_RF"%string := 40%float ]}) !! "SO RF"%string =
  snd (register_extra_flange_prices (identified_extra_flanges "WN + SO RF + SO-RF")
         {[ "price_extra_SO_RF"%string := 40%float ]}) !! "SO-RF"%string.
Proof.
  split; [discriminate|].
  apply colliding_descriptions_share_price.
  - vm_compute. apply elem_of_cons. left. reflexivity.
  - vm_compute. apply elem_of_cons. right. apply elem_of_cons. left. reflexivity.
  - reflexivity.
Defined.

Lemma income_fold_registered
    (table fields : gmap string float) (extras : list string) (acc : float) :
  (forall d, d ∈ extras ->
             table !! d = Some (default 0.0%float (fields !! price_key d))) ->
  fold_left
    (fun total desc =>
       (total + match table !! desc with Some price => price | None => 0.0 end)%float)
    extras acc =
  fold_left
    (fun total desc => (total + default 0.0%float (fields !! price_key desc))%float)
    extras acc.
Proof.
  revert acc. induction extras as [|d extras IH]; intros acc Htable; [reflexivity|].
  cbn [fold_left]. rewrite (Htable d) by (apply elem_of_cons; by left).
  apply IH. intros d' Hd'. apply Htable, elem_of_cons. by right.
Qed.

(** The credit for extra flanges after a registration is the sum, in the
    order of the label, of the prices in the flanges' fields, a missing
    field counting 0.0. *)
Theorem extra_flange_income_after_registration
    (extras : list string) (fields : gmap string float) :
  extra_flange_income (snd (register_extra_flange_prices extras fields)) extras =
    fold_left
      (fun total desc => (total + default 0.0%float (fields !! price_key desc))%float)
      extras 0%float.
Proof.
  unfold extra_flange_income.
  destruct extras as [|d0 extras]; [rewrite andb_false_r; reflexivity|].
  set (all := d0 :: extras).
  set (table := snd (register_extra_flange_prices all fields)).
  assert (Htable : forall d, d ∈ all ->
            table !! d = Some (default 0.0%float (fields !! price_key d))).
  { intros d Hd. unfold table.
    rewrite (proj1 (register_table_lookup all fields d)).
    rewrite (bool_decide_eq_true_2 _ Hd). reflexivity. }
  assert (Hne : table <> ∅).
  { intros Hempty. specialize (Htable d0 ltac:(apply elem_of_cons; by left)).
    rewrite Hempty, lookup_empty in Htable. discriminate Htable. }
  rewrite (bool_decide_eq_false_2 _ Hne).
  rewrite (bool_decide_eq_false_2 (all = [])) by discriminate. cbn [negb andb].
  apply income_fold_registered, Htable.
Qed.

(** ** Price keys and labels, further *)

Lemma sub_nonword_runs_length (in_run : bool) (s : string) :
  (String.length (sub_nonword_runs in_run s) <= String.length s)%nat.
Proof.
  revert in_run. induction s as [|c s IH]; intros in_run; cbn; [lia|].
  destruct (PyStr.is_word c).
  - cbn. specialize (IH false). lia.
  - destruct in_run.
    + specialize (IH true). lia.
    + cbn. specialize (IH true). lia.
Qed.

(** A key is never longer than the description it comes from, and the
    descriptions that are their own key are exactly those made of word
    characters only. *)
Theorem create_safe_key_fixed_points (description_str : string) :
  (String.length (create_safe_key description_str) <= String.length description_str)%nat /\
  (create_safe_key description_str = description_str <->
   all_word description_str = true).
Proof.
  split; [apply sub_nonword_runs_length|]. split.
  - intros H. rewrite <- H. apply sub_nonword_runs_word.
  - apply sub_nonword_runs_word_text.
Qed.

Lemma split_parts_without_separator (sep : ascii) (s p : string) :
  In p (PyStr.split sep s) -> PyStr.contains sep p = false.
Proof.
  revert p. induction s as [|c s IH]; intros p; cbn.
  { intros [<-|[]]. reflexivity. }
  destruct (Ascii.eqb c sep) eqn:Hc.
  - intros [<-|Hin]; [reflexivity|apply IH, Hin].
  - pose proof (split_nonempty sep s) as Hne.
    destruct (PyStr.split sep s) as [|h t]; [contradiction|]. cbn.
    intros [<-|Hin].
    + cbn. rewrite Hc. apply IH. left. reflexivity.
    + apply IH. right. exact Hin.
Qed.

Lemma contains_lstrip (c : ascii) (s : string) :
  PyStr.contains c s = false -> PyStr.contains c (PyStr.lstrip s) = false.
Proof.
  induction s as [|d s IH]; cbn; [auto|].
  intros H. apply orb_false_iff in H as [Hd Hs].
  destruct (PyStr.is_space d); [apply IH, Hs|]. cbn. rewrite Hd, Hs. reflexivity.
Qed.

Lemma contains_rstrip (c : ascii) (s : string) :
  PyStr.contains c s = false -> PyStr.contains c (PyStr.rstrip s) = false.
Proof.
  induction s as [|d s IH]; cbn; [auto|].
  intros H. apply orb_false_iff in H as [Hd Hs].
  destruct (PyStr.is_space d && PyStr.is_empty (PyStr.rstrip s)); [reflexivity|].
  cbn. rewrite Hd, (IH Hs). reflexivity.
Qed.

Lemma rstrip_idempotent (s : string) : PyStr.rstrip (PyStr.rstrip s) = PyStr.rstrip s.
Proof.
  induction s as [|c s IH]; cbn; [reflexivity|].
  destruct (PyStr.is_space c && PyStr.is_empty (PyStr.rstrip s)) eqn:Hc; [reflexivity|].
  cbn. rewrite IH, Hc. reflexivity.
Qed.

Lemma strip_idempotent (s : string) : PyStr.strip (PyStr.strip s) = PyStr.strip s.
Proof.
  unfold PyStr.strip.
  rewrite (rstrip_lstrip (PyStr.rstrip (PyStr.lstrip s))), rstrip_idempotent.
  rewrite <- rstrip_lstrip, lstrip_idempotent. reflexivity.
Qed.

Lemma segment_is_clean (label p : string) :
  In p (label_segments label) ->
  PyStr.strip p = p /\ PyStr.contains "+" p = false.
Proof.
  unfold label_segments. intros Hin. apply in_map_iff in Hin as (q & <- & Hq).
  split; [apply strip_idempotent|].
  unfold PyStr.strip. apply contains_rstrip, contains_lstrip.
  exact (split_parts_without_separator "+" label q Hq).
Qed.

(** The descriptions a label is parsed into are clean: the primary
    description and every extra flange carry no surrounding whitespace
    and no "+", and no extra flange is blank. *)
Theorem parsed_descriptions_are_clean (label : string) :
  PyStr.strip (primary_flange_description_for_display label) =
    primary_flange_description_for_display label /\
  PyStr.contains "+" (primary_flange_description_for_display label) = false /\
  (forall desc,
      desc ∈ identified_extra_flanges label ->
      PyStr.is_empty desc = false /\
      PyStr.strip desc = desc /\
      PyStr.contains "+" desc = false).
Proof.
  unfold primary_flange_description_for_display, identified_extra_flanges.
  rewrite split_compound_label_segments. cbn [fst snd].
  assert (Hprimary : In (primary_segment label) (label_segments label)).
  { unfold primary_segment, label_segments.
    pose proof (split_nonempty "+" label) as Hne.
    destruct (PyStr.split "+" label); [contradiction|]. left. reflexivity. }
  destruct (segment_is_clean label _ Hprimary) as [Hstrip Hplus].
  split; [exact Hstrip|]. split; [exact Hplus|].
  intros desc Hin. apply list_elem_of_In, filter_In in Hin as [Hin Hnonblank].
  assert (Hseg : In desc (label_segments label)).
  { unfold extra_segments in Hin. destruct (label_segments label); [destruct Hin|].
    right. exact Hin. }
  destruct (segment_is_clean label desc Hseg) as [Hs Hp].
  split; [|auto]. destruct (PyStr.is_empty desc); [discriminate Hnonblank|reflexivity].
Qed.

(** A label without "+" has no extra flange, and it is its own primary
    description up to surrounding whitespace. *)
Theorem plain_label_has_no_extras (label : string) :
  PyStr.contains "+" label = false ->
  split_compound_label label = (PyStr.strip label, []).
Proof.
  intros Hplain. rewrite split_compound_label_segments.
  unfold primary_segment, extra_segments, label_segments.
  rewrite (split_without_separator "+" label Hplain). reflexivity.
Qed.

Lemma plain_label_has_no_extras_witness :
  split_compound_label "  Weld Neck RF " = ("Weld Neck RF"%string, []).
Proof. apply (plain_label_has_no_extras "  Weld Neck RF "). reflexivity. Defined.

(** ** What stops a calculation *)

(** The handler reports missing weights exactly when CW or FW is absent
    or null.  A weight that is present but no number, as in a leaf that
    stores its weights as text, is not reported: formatting it raises
    [ValueError] for a string and [TypeError] for a list or a mapping,
    and no cost is computed. *)
Theorem weights_that_stop_the_calculation
    (inp : CostInputs) (prices : gmap string float)
    (leaf : gmap string pyval) (path : list string) :
  (calculate_costs inp prices leaf path = Ok MissingWeights <->
   PyVal.get leaf "CW" PNone = PNone \/ PyVal.get leaf "FW" PNone = PNone) /\
  (PyVal.get leaf "CW" PNone <> PNone ->
   PyVal.get leaf "FW" PNone <> PNone ->
   PyVal.is_number (PyVal.get leaf "CW" PNone) = false \/
   PyVal.is_number (PyVal.get leaf "FW" PNone) = false ->
   calculate_costs inp prices leaf path = Raise ValueError \/
   calculate_costs inp prices leaf path = Raise TypeError).
Proof.
  unfold calculate_costs.
  destruct (PyVal.get leaf "CW" PNone) as [|bc|xc|sc|lc|dc] eqn:Hcw;
    destruct (PyVal.get leaf "FW" PNone) as [|bf|xf|sf|lf|df] eqn:Hfw; cbn.
  all: split;
    [ split;
      [ first [ intros _; auto; fail
              | intros H; exfalso;
                repeat match type of H with
                  | context [cost_breakdown ?a ?b ?c ?d ?e ?f ?g ?h] =>
                      destruct (cost_breakdown a b c d e f g h); cbn in H
                  end; discriminate H ]
      | intros [H|H]; first [discriminate H | reflexivity] ]
    | intros Hc Hf Hnum; first [congruence | destruct Hnum; discriminate | auto] ].
Qed.

Lemma weights_that_stop_the_calculation_witness :
  calculate_costs example_inputs ∅ text_weight_leaf ["WN"; "2_inch"]%string =
    Raise ValueError \/
  calculate_costs example_inputs ∅ text_weight_leaf ["WN"; "2_inch"]%string =
    Raise TypeError.
Proof.
  apply (proj2 (weights_that_stop_the_calculation example_inputs ∅ text_weight_leaf
                  ["WN"; "2_inch"]%string)).
  - vm_compute. discriminate.
  - vm_compute. discriminate.
  - left. vm_compute. reflexivity.
Defined.

(** ** Where the rendering stops *)

Lemma render_levels_stop (flange_database : pyval) (n : nat) :
  forall (k : nat) (sel sel' : list string) (boxes : list Selectbox),
    (k + n <= length sel)%nat ->
    render_levels flange_database (seq k n) sel = Ok (sel', boxes) ->
    (length boxes < n)%nat ->
    is_costable_leaf
      (follow_selections flange_database (take (k + length boxes) sel')) = true.
Proof.
  induction n as [|n IH]; intros k sel sel' boxes Hlen Hrun Hfew; [lia|].
  cbn [seq render_levels] in Hrun.
  rewrite dropdown_source_take in Hrun by lia. cbn in Hrun.
  destruct (is_costable_leaf (follow_selections flange_database (take k sel))) eqn:Hleaf.
  { injection Hrun as <- <-. cbn. rewrite Nat.add_0_r. exact Hleaf. }
  destruct (lookup_lt_is_Some_2 sel k ltac:(lia)) as [current Hcurrent].
  rewrite Hcurrent in Hrun.
  set (valid := bool_decide _) in Hrun.
  set (sel1 := if valid then sel else <[k := EmptyString]> sel) in Hrun.
  assert (Hlen1 : length sel1 = length sel).
  { unfold sel1. destruct valid; [reflexivity|apply length_insert]. }
  destruct (render_levels_spec flange_database n (S k) sel1 ltac:(lia))
    as (sel3 & boxes3 & Hrun3 & _).
  rewrite Hrun3 in Hrun. cbn in Hrun. injection Hrun as <- <-.
  cbn [length] in Hfew |- *.
  replace (k + S (length boxes3))%nat with (S k + length boxes3)%nat by lia.
  apply (IH (S k) sel1 sel3 boxes3); [lia|exact Hrun3|lia].
Qed.

(** The loop stops early only at a leaf: when fewer select boxes are
    rendered than there are levels, the selections above the first level
    without a box lead to a costable leaf. *)
Theorem render_dropdowns_stops_at_leaf
    (flange_database : pyval) (sel sel' : list string) (boxes : list Selectbox) :
  (length level_names <= length sel)%nat ->
  render_dropdowns flange_database sel = Ok (sel', boxes) ->
  (length boxes < length level_names)%nat ->
  is_costable_leaf
    (follow_selections flange_database (take (length boxes) sel')) = true.
Proof.
  intros Hlen Hrun Hfew.
  exact (render_levels_stop flange_database (length level_names) 0 sel sel' boxes
           Hlen Hrun Hfew).
Qed.

Lemma render_dropdowns_stops_at_leaf_witness :
  exists sel' boxes,
    render_dropdowns text_weight_catalog
      (["WN"; "2_inch"]%string ++ replicate 5 EmptyString) = Ok (sel', boxes) /\
    length boxes = 2%nat /\
    is_costable_leaf
      (follow_selections text_weight_catalog (take (length boxes) sel')) = true.
Proof.
  assert (Hlen : (length level_names <=
                  length (["WN"; "2_inch"]%string ++ replicate 5 EmptyString))%nat)
    by (cbn; lia).
  destruct (render_levels_spec text_weight_catalog (length level_names) 0
              (["WN"; "2_inch"]%string ++ replicate 5 EmptyString) Hlen)
    as (sel' & boxes & Hrun & _).
  pose proof Hrun as Hvalue. vm_compute in Hvalue.
  destruct boxes as [|w0 [|w1 [|w2 boxes]]]; try discriminate Hvalue.
  exists sel', [w0; w1]. split; [exact Hrun|]. split; [reflexivity|].
  apply (render_dropdowns_stops_at_leaf text_weight_catalog
           (["WN"; "2_inch"]%string ++ replicate 5 EmptyString) sel' [w0; w1] Hlen Hrun).
  cbn. lia.
Defined.
